(** * keras_convnet_example: the notebook as a program over library calls

    The notebook [examples/keras_convnet_example.ipynb] is a sequence of
    code cells, each a few statements that call into numpy, keras, janggu,
    pkg_resources and scikit-learn.  Nothing is computed by the notebook
    beyond two integer expressions and one string repetition; everything
    else is a call whose result is an object owned by a library.

    The embedding therefore keeps the libraries abstract.  A cell is a
    program in a small monad whose only operation is "perform this call and
    continue with its result"; a library is any function from calls and
    worlds to outcomes and worlds, and may raise.  Running the notebook
    against a library yields the trace of calls it made. *)

From Stdlib Require Import ZArith Ascii.
From stdpp Require Import base option list strings gmap.

#[local] Set Warnings "-register-all".
Local Open Scope string_scope.
Local Open Scope list_scope.
Local Open Scope Z_scope.

(** ** Python values that cross the notebook/library boundary *)

Inductive pyval : Type :=
  | VNone
  | VBool (b : bool)
  | VInt (z : Z)
  | VStr (s : string)
  | VTuple (items : list pyval)
  | VList (items : list pyval)
  | VSlice (start stop step : pyval)
  | VObj (ref : N).

(** An exception is identified by its class and its message. *)
Record pyexn : Type := Exn { exn_class : string; exn_msg : string }.

Inductive outcome : Type :=
  | Returns (v : pyval)
  | Raises (x : pyexn).

(** Keyword arguments are an unordered mapping from names to values. *)
Abbreviation kwargs := (gmap string pyval).

(** ** The calls a cell can make

    One effect per call expression of the source.  Resolving the callee
    (a global name, a dotted path, a bound method) is part of the call. *)
Inductive effect : Type :=
  | Import (module : string)
  | ImportFrom (module name : string)
  | Call (f : string) (args : list pyval) (kw : kwargs)
  | CallObj (f : pyval) (args : list pyval) (kw : kwargs)
  | CallMethod (self : pyval) (meth : string) (args : list pyval) (kw : kwargs)
  | GetAttr (self : pyval) (attr : string)
  | GetItem (self : pyval) (key : pyval)
  | SetEnviron (key value : string)
  | GetEnviron (key : string)
  | Print (args : list pyval).

(** ** Programs: a call followed by the rest, or a finished value *)

Inductive prog (A : Type) : Type :=
  | Ret (a : A)
  | Do (e : effect) (k : pyval -> prog A).

Arguments Ret {A} a.
Arguments Do {A} e k.

Fixpoint bind {A B : Type} (m : prog A) (f : A -> prog B) : prog B :=
  match m with
  | Ret a => f a
  | Do e k => Do e (fun v => bind (k v) f)
  end.

#[global] Instance prog_ret : MRet prog := @Ret.
#[global] Instance prog_bind : MBind prog := fun A B f m => bind m f.

Definition perform (e : effect) : prog pyval := Do e Ret.

(** Statement forms of the source, one definition each. *)
Definition import_ (module : string) : prog pyval := perform (Import module).
Definition from_import (module name : string) : prog pyval :=
  perform (ImportFrom module name).
Definition call (f : string) (args : list pyval) (kw : kwargs) : prog pyval :=
  perform (Call f args kw).
Definition apply_obj (f : pyval) (args : list pyval) : prog pyval :=
  perform (CallObj f args ∅).
Definition method (self : pyval) (meth : string) (args : list pyval)
    (kw : kwargs) : prog pyval :=
  perform (CallMethod self meth args kw).
Definition getattr (self : pyval) (attr : string) : prog pyval :=
  perform (GetAttr self attr).
Definition getitem (self key : pyval) : prog pyval :=
  perform (GetItem self key).
Definition print (args : list pyval) : prog pyval := perform (Print args).

(** [s * n] on a Python string. *)
Definition str_mul (s : string) (n : Z) : string :=
  String.concat "" (replicate (Z.to_nat n) s).

(** ** The notebook, cell by cell *)

Module Notebook.

(** Cell 1. *)
Definition cell_imports : prog unit :=
  import_ "os";;
  import_ "numpy";;
  from_import "keras" "Model";;
  from_import "keras" "backend";;
  from_import "keras.layers" "Conv2D";;
  from_import "keras.layers" "Dense";;
  from_import "keras.layers" "GlobalAveragePooling2D";;
  from_import "keras.layers" "Input";;
  from_import "pkg_resources" "resource_filename";;
  from_import "janggu.data" "Bioseq";;
  from_import "janggu.data" "Cover";;
  from_import "janggu.data" "ReduceDim";;
  from_import "janggu.layers" "DnaConv2D";;
  from_import "sklearn.metrics" "roc_auc_score";;
  mret tt.

(** Cell 2. *)
Definition cell_seed : prog unit :=
  from_import "IPython.display" "Image";;
  call "np.random.seed" [VInt 1234] ∅;;
  mret tt.

(** Cell 3. *)
Definition output_dir : string := "/home/wkopp/janggu_examples".

Definition cell_output : prog unit :=
  perform (SetEnviron "JANGGU_OUTPUT" output_dir);;
  mret tt.

(** Cell 4. *)
Definition order : Z := 3.

(** Cell 5: the four resource files. *)
Record files : Type := Files {
  REFGENOME : pyval;
  ROI_TRAIN_FILE : pyval;
  ROI_TEST_FILE : pyval;
  PEAK_FILE : pyval
}.

Definition cell_files : prog files :=
  refgenome ← call "resource_filename"
    [VStr "janggu"; VStr "resources/pseudo_genome.fa"] ∅;
  roi_train ← call "resource_filename"
    [VStr "janggu"; VStr "resources/roi_train.bed"] ∅;
  roi_test ← call "resource_filename"
    [VStr "janggu"; VStr "resources/roi_test.bed"] ∅;
  peak ← call "resource_filename"
    [VStr "janggu"; VStr "resources/scores.bed"] ∅;
  mret (Files refgenome roi_train roi_test peak).

(** Cell 6: keyword arguments of the four loader calls. *)
Definition dna_train_kw (f : files) : kwargs :=
  {[ "refgenome" := REFGENOME f;
     "roi" := ROI_TRAIN_FILE f;
     "binsize" := VInt 200;
     "order" := VInt order;
     "cache" := VBool true ]}.

Definition labels_train_kw (f : files) : kwargs :=
  {[ "roi" := ROI_TRAIN_FILE f;
     "bedfiles" := PEAK_FILE f;
     "binsize" := VInt 200;
     "resolution" := VInt 200;
     "cache" := VBool true;
     "storage" := VStr "sparse" ]}.

Definition dna_test_kw (f : files) : kwargs :=
  {[ "refgenome" := REFGENOME f;
     "roi" := ROI_TEST_FILE f;
     "binsize" := VInt 200;
     "order" := VInt order ]}.

Definition labels_test_kw (f : files) : kwargs :=
  {[ "bedfiles" := PEAK_FILE f;
     "roi" := ROI_TEST_FILE f;
     "binsize" := VInt 200;
     "resolution" := VInt 200;
     "storage" := VStr "sparse" ]}.

Record datasets : Type := Datasets {
  DNA : pyval;
  LABELS : pyval;
  DNA_TEST : pyval;
  LABELS_TEST : pyval
}.

Definition load_train (f : files) : prog (pyval * pyval) :=
  dna ← call "Bioseq.create_from_refgenome" [VStr "dna"] (dna_train_kw f);
  cover ← call "Cover.create_from_bed" [VStr "peaks"] (labels_train_kw f);
  labels ← call "ReduceDim" [cover] ∅;
  mret (dna, labels).

Definition load_test (f : files) : prog (pyval * pyval) :=
  dna ← call "Bioseq.create_from_refgenome" [VStr "dna"] (dna_test_kw f);
  cover ← call "Cover.create_from_bed" [VStr "peaks"] (labels_test_kw f);
  labels ← call "ReduceDim" [cover] ∅;
  mret (dna, labels).

Definition cell_load (f : files) : prog datasets :=
  train ← load_train f;
  test ← load_test f;
  mret (Datasets train.1 train.2 test.1 test.2).

(** Cell 7. *)
Definition cell_shapes (d : datasets) : prog unit :=
  s1 ← getattr (DNA d) "shape";
  s2 ← getattr (LABELS d) "shape";
  print [VStr "training set:"; s1; s2];;
  s3 ← getattr (DNA_TEST d) "shape";
  s4 ← getattr (LABELS_TEST d) "shape";
  print [VStr "test set:"; s3; s4];;
  mret tt.

(** Cell 8. *)
Definition input_shape : list Z := [200 - order + 1; 1; 4 ^ order].

Definition conv_kw : kwargs := {[ "activation" := VStr "relu" ]}.
Definition dense_kw : kwargs := {[ "activation" := VStr "sigmoid" ]}.
Definition compile_kw : kwargs :=
  {[ "optimizer" := VStr "adadelta";
     "loss" := VStr "binary_crossentropy";
     "metrics" := VList [VStr "acc"] ]}.

Definition cell_model : prog pyval :=
  xin ← call "Input" [VTuple (VInt <$> input_shape)] ∅;
  conv ← call "Conv2D" [VInt 30; VTuple [VInt 21; VInt 1]] conv_kw;
  dnaconv ← call "DnaConv2D" [conv] ∅;
  layer ← apply_obj dnaconv [xin];
  pool ← call "GlobalAveragePooling2D" [] ∅;
  layer ← apply_obj pool [layer];
  dense ← call "Dense" [VInt 1] dense_kw;
  output ← apply_obj dense [layer];
  model ← call "Model" [xin; output] ∅;
  method model "compile" [] compile_kw;;
  method model "summary" [] ∅;;
  mret model.

(** Cell 9. *)
Definition fit_kw : kwargs := {[ "epochs" := VInt 100 ]}.

Definition cell_fit (d : datasets) (model : pyval) : prog pyval :=
  hist ← method model "fit" [DNA d; LABELS d] fit_kw;
  print [VStr (str_mul "#" 40)];;
  history ← getattr hist "history";
  losses ← getitem history (VStr "loss");
  loss ← getitem losses (VInt (-1));
  history ← getattr hist "history";
  accs ← getitem history (VStr "acc");
  acc ← getitem accs (VInt (-1));
  line ← method (VStr "loss: {}, acc: {}") "format" [loss; acc] ∅;
  print [line];;
  print [VStr (str_mul "#" 40)];;
  mret hist.

(** Cell 10. *)
Definition cell_export (d : datasets) (model : pyval) : prog pyval :=
  pred ← method model "predict" [DNA_TEST d] ∅;
  gindexer ← getattr (LABELS_TEST d) "gindexer";
  cov_pred ← call "Cover.create_from_array"
    [VStr "BindingProba"; pred; gindexer] ∅;
  out ← perform (GetEnviron "JANGGU_OUTPUT");
  method cov_pred "export_to_bigwig" [] {[ "output_dir" := out ]};;
  mret pred.

(** Cell 11. *)
Definition cell_score (d : datasets) (pred : pyval) : prog unit :=
  labels ← getitem (LABELS_TEST d) (VSlice VNone VNone VNone);
  auc ← call "roc_auc_score" [labels; pred] ∅;
  print [VStr "AUC:"; auc];;
  mret tt.

(** The notebook run top to bottom. *)
Definition script : prog unit :=
  cell_imports;;
  cell_seed;;
  cell_output;;
  f ← cell_files;
  d ← cell_load f;
  cell_shapes d;;
  model ← cell_model;
  cell_fit d model;;
  pred ← cell_export d model;
  cell_score d pred.

End Notebook.

(** ** Running a program against a library

    The world is the process environment together with whatever state the
    libraries keep.  A library answers every call with an outcome and a new
    world; it is free to read and to change both components.  Assignments
    to and reads from [os.environ] are interpreted on the environment. *)

Record world (L : Type) : Type := World {
  environ : gmap string string;
  lib_state : L
}.

Arguments World {L} environ lib_state.
Arguments environ {L} w.
Arguments lib_state {L} w.

Definition library (L : Type) : Type := effect -> world L -> outcome * world L.

Definition step {L : Type} (h : library L) (e : effect) (w : world L)
    : outcome * world L :=
  match e with
  | SetEnviron k v =>
      (Returns VNone, World (<[k := v]> (environ w)) (lib_state w))
  | GetEnviron k =>
      match environ w !! k with
      | Some v => (Returns (VStr v), w)
      | None => (Raises (Exn "KeyError" k), w)
      end
  | _ => h e w
  end.

(** One entry of the trace: the world the call was made in, the call, and
    how it ended. *)
Record event (L : Type) : Type := Event {
  ev_pre : world L;
  ev_call : effect;
  ev_out : outcome
}.

Arguments Event {L} ev_pre ev_call ev_out.
Arguments ev_pre {L} e.
Arguments ev_call {L} e.
Arguments ev_out {L} e.

Record result (L A : Type) : Type := Result {
  trace : list (event L);
  final : pyexn + A;
  world_after : world L
}.

Arguments Result {L A} trace final world_after.
Arguments trace {L A} r.
Arguments final {L A} r.
Arguments world_after {L A} r.

(** A raised exception ends the run: the program has no handler form. *)
Fixpoint run {L A : Type} (h : library L) (p : prog A) (w : world L)
    : result L A :=
  match p with
  | Ret a => Result [] (inr a) w
  | Do e k =>
      match step h e w with
      | (Returns v, w') =>
          let r := run h (k v) w' in
          Result (Event w e (Returns v) :: trace r) (final r) (world_after r)
      | (Raises x, w') => Result [Event w e (Raises x)] (inl x) w'
      end
  end.

Definition calls {L : Type} (tr : list (event L)) : list effect :=
  ev_call <$> tr.

Definition view {L : Type} (tr : list (event L)) : list (effect * outcome) :=
  (fun ev => (ev_call ev, ev_out ev)) <$> tr.

(** The value the n-th call of a trace returned. *)
Definition results {L : Type} (tr : list (event L)) (n : nat) : pyval :=
  match tr !! n with
  | Some (Event _ _ (Returns v)) => v
  | _ => VNone
  end.

(** The calls a program makes when the n-th call returns [rs n]. *)
Fixpoint replay {A : Type} (p : prog A) (rs : nat -> pyval) (i : nat)
    : list (effect * pyval) :=
  match p with
  | Ret _ => []
  | Do e k => (e, rs i) :: replay (k (rs i)) rs (S i)
  end.

Definition ok (c : effect * pyval) : effect * outcome := (c.1, Returns c.2).

(** [returned tr e v]: the trace holds the call [e], and it returned [v]. *)
Definition returned {L : Type} (tr : list (event L)) (e : effect) (v : pyval)
    : Prop :=
  (e, Returns v) ∈ view tr.

Definition completes {L A : Type} (r : result L A) : Prop :=
  exists a, final r = inr a.

(** ** Worlds along a trace *)

(** A trace is chained from [w] when every call was made in the world the
    previous one left, and recorded the outcome the interpreter gave. *)
Fixpoint chained {L : Type} (h : library L) (w : world L)
    (tr : list (event L)) : Prop :=
  match tr with
  | [] => True
  | ev :: tr' =>
      ev_pre ev = w /\
      (step h (ev_call ev) w).1 = ev_out ev /\
      chained h (step h (ev_call ev) w).2 tr'
  end.

(** The world after the calls of a trace, started in [w]. *)
Definition after {L : Type} (h : library L) (w : world L)
    (tr : list (event L)) : world L :=
  foldl (fun w' ev => (step h (ev_call ev) w').2) w tr.

(** The library leaves the environment variable [k] as it found it. *)
Definition keeps {L : Type} (h : library L) (k : string) : Prop :=
  forall e w, environ (h e w).2 !! k = environ w !! k.

(** The call assigns to the environment variable [k]. *)
Definition sets (k : string) (e : effect) : bool :=
  match e with
  | SetEnviron k' _ => String.eqb k' k
  | _ => false
  end.

(** The call assigns to some environment variable. *)
Definition writes_environ (e : effect) : bool :=
  match e with
  | SetEnviron _ _ => true
  | _ => false
  end.

(** ** Reading traces of the notebook *)

Import Notebook.

(** The name under which a call reaches its library. *)
Definition callee (e : effect) : string :=
  match e with
  | Import _ | ImportFrom _ _ => "import"
  | Call f _ _ => f
  | CallObj _ _ _ => "__call__"
  | CallMethod _ m _ _ => m
  | GetAttr _ a => a
  | GetItem _ _ => "__getitem__"
  | SetEnviron _ _ => "os.environ.__setitem__"
  | GetEnviron _ => "os.environ.__getitem__"
  | Print _ => "print"
  end.

Definition named (names : list string) (s : string) : bool :=
  existsb (String.eqb s) names.

(** Imports and the seeding of numpy's generator. *)
Definition is_setup (e : effect) : bool :=
  match e with
  | Import _ | ImportFrom _ _ => true
  | Call f _ _ => String.eqb f "np.random.seed"
  | _ => false
  end.

Definition is_seed (e : effect) : bool :=
  match e with
  | Call f _ _ => String.eqb f "np.random.seed"
  | _ => false
  end.

(** The classes the notebook imports from keras and janggu.layers; a call
    of one of them, or of an object (a layer applied to a tensor), builds
    the model. *)
Definition model_classes : list string :=
  ["Model"; "Conv2D"; "Dense"; "GlobalAveragePooling2D"; "Input"; "DnaConv2D"].

Definition builds_model (e : effect) : bool :=
  match e with
  | Call f _ _ => named model_classes f
  | CallObj _ _ _ => true
  | _ => false
  end.

(** Keras entry points that train a model. *)
Definition is_fitting (e : effect) : bool :=
  match e with
  | CallMethod _ m _ _ => named ["fit"; "fit_generator"; "train_on_batch"] m
  | _ => false
  end.

(** Keras entry points that compute predictions. *)
Definition is_predicting (e : effect) : bool :=
  match e with
  | CallMethod _ m _ _ =>
      named ["predict"; "predict_generator"; "predict_on_batch"] m
  | _ => false
  end.

Definition has_kw (k : string) (e : effect) : bool :=
  match e with
  | Call _ _ kw | CallObj _ _ kw | CallMethod _ _ _ kw =>
      match kw !! k with Some _ => true | None => false end
  | _ => false
  end.

(** The functions, methods and attributes the notebook uses that neither
    are given a place to write to nor change the environment on the
    notebook's behalf. *)
Definition allowed_functions : list string :=
  [ "np.random.seed"; "resource_filename"; "Bioseq.create_from_refgenome";
    "Cover.create_from_bed"; "ReduceDim"; "Input"; "Conv2D"; "DnaConv2D";
    "GlobalAveragePooling2D"; "Dense"; "Model"; "Cover.create_from_array";
    "roc_auc_score" ].

Definition allowed_methods : list string :=
  ["compile"; "summary"; "fit"; "format"; "predict"].

Definition allowed_attributes : list string :=
  ["shape"; "history"; "gindexer"].

(** The calls that are within the frame: imports, reads (of an attribute
    named above, of an item, of the environment), printing to the standard
    output, applying an object to values, and calls of the functions and
    methods named above that are not given an [output_dir].  An assignment
    to the environment is not among them, nor is any function or method
    not named above ([open], [np.save], a [write] method, [os.putenv],
    an export). *)
Definition permitted (e : effect) : bool :=
  match e with
  | Import _ | ImportFrom _ _ => true
  | Call f _ _ => named allowed_functions f && negb (has_kw "output_dir" e)
  | CallObj _ _ _ => negb (has_kw "output_dir" e)
  | CallMethod _ m _ _ =>
      named allowed_methods m && negb (has_kw "output_dir" e)
  | GetAttr _ a => named allowed_attributes a
  | GetItem _ _ => true
  | SetEnviron _ _ => false
  | GetEnviron _ => true
  | Print _ => true
  end.

(** The two calls with which the notebook reaches outside: the assignment
    of the output directory and the export of the track. *)
Definition boundary (e : effect) : Prop :=
  e = SetEnviron "JANGGU_OUTPUT" output_dir \/
  exists cov d,
    e = CallMethod cov "export_to_bigwig" [] {[ "output_dir" := d ]}.

(** The calls of a completed run, as a function of what each returned. *)
Definition script_calls (rs : nat -> pyval) : list (effect * pyval) :=
  Eval cbv [replay script cell_imports cell_seed cell_output cell_files
            cell_load load_train load_test cell_shapes cell_model cell_fit
            cell_export cell_score mbind mret prog_bind prog_ret bind perform
            import_ from_import call apply_obj method getattr getitem print
            fst snd DNA LABELS DNA_TEST LABELS_TEST]
  in replay script rs 0.

(** The notebook's global names after a completed run. *)
Record globals : Type := Globals {
  g_files : files;
  g_data : datasets;
  g_xin : pyval;
  g_output : pyval;
  g_model : pyval;
  g_hist : pyval;
  g_pred : pyval;
  g_cov_pred : pyval
}.

Definition namespace {L : Type} (tr : list (event L)) : globals :=
  let rs := results tr in
  Globals (Files (rs 17%nat) (rs 18%nat) (rs 19%nat) (rs 20%nat))
          (Datasets (rs 21%nat) (rs 23%nat) (rs 24%nat) (rs 26%nat))
          (rs 33%nat) (rs 40%nat) (rs 41%nat) (rs 44%nat) (rs 55%nat)
          (rs 57%nat).

(** Where the values of the global names came from. *)
Definition located {L : Type} (tr : list (event L)) (f : files) : Prop :=
  returned tr (Call "resource_filename"
    [VStr "janggu"; VStr "resources/pseudo_genome.fa"] ∅) (REFGENOME f) /\
  returned tr (Call "resource_filename"
    [VStr "janggu"; VStr "resources/roi_train.bed"] ∅) (ROI_TRAIN_FILE f) /\
  returned tr (Call "resource_filename"
    [VStr "janggu"; VStr "resources/roi_test.bed"] ∅) (ROI_TEST_FILE f) /\
  returned tr (Call "resource_filename"
    [VStr "janggu"; VStr "resources/scores.bed"] ∅) (PEAK_FILE f).

Definition loaded_train {L : Type} (tr : list (event L)) (f : files)
    (d : datasets) : Prop :=
  exists cover,
    returned tr (Call "Bioseq.create_from_refgenome" [VStr "dna"]
                   (dna_train_kw f)) (DNA d) /\
    returned tr (Call "Cover.create_from_bed" [VStr "peaks"]
                   (labels_train_kw f)) cover /\
    returned tr (Call "ReduceDim" [cover] ∅) (LABELS d).

Definition loaded_test {L : Type} (tr : list (event L)) (f : files)
    (d : datasets) : Prop :=
  exists cover,
    returned tr (Call "Bioseq.create_from_refgenome" [VStr "dna"]
                   (dna_test_kw f)) (DNA_TEST d) /\
    returned tr (Call "Cover.create_from_bed" [VStr "peaks"]
                   (labels_test_kw f)) cover /\
    returned tr (Call "ReduceDim" [cover] ∅) (LABELS_TEST d).

Definition provenance {L : Type} (tr : list (event L)) (g : globals) : Prop :=
  located tr (g_files g) /\
  loaded_train tr (g_files g) (g_data g) /\
  loaded_test tr (g_files g) (g_data g) /\
  returned tr (Call "Model" [g_xin g; g_output g] ∅) (g_model g).

(** The call is an import statement. *)
Definition is_import (e : effect) : bool :=
  match e with
  | Import _ | ImportFrom _ _ => true
  | _ => false
  end.

(** Two calls are the same except, at most, for the keyword [k]. *)
Definition same_but (k : string) (e1 e2 : effect) : Prop :=
  match e1, e2 with
  | Call f1 a1 kw1, Call f2 a2 kw2 =>
      f1 = f2 /\ a1 = a2 /\ forall k', k' <> k -> kw1 !! k' = kw2 !! k'
  | _, _ => False
  end.

(** The steps of the notebook as the specification lists them, each with
    the names of the calls it makes; the numbered steps are the seven of
    the specification, the others are the setup, the lookup of the
    resource files and the printing of the dataset shapes. *)
Definition phases : list (string * list string) :=
  [ ("imports and seed", replicate 15 "import" ++ ["np.random.seed"]);
    ("1. output directory", ["os.environ.__setitem__"]);
    ("resource files", replicate 4 "resource_filename");
    ("2. training datasets",
     ["Bioseq.create_from_refgenome"; "Cover.create_from_bed"; "ReduceDim"]);
    ("3. test datasets",
     ["Bioseq.create_from_refgenome"; "Cover.create_from_bed"; "ReduceDim"]);
    ("dataset shapes", ["shape"; "shape"; "print"; "shape"; "shape"; "print"]);
    ("4. model",
     ["Input"; "Conv2D"; "DnaConv2D"; "__call__"; "GlobalAveragePooling2D";
      "__call__"; "Dense"; "__call__"; "Model"; "compile"; "summary"]);
    ("5. fit",
     ["fit"; "print"; "history"; "__getitem__"; "__getitem__"; "history";
      "__getitem__"; "__getitem__"; "format"; "print"; "print"]);
    ("6. predict, wrap, export",
     ["predict"; "gindexer"; "Cover.create_from_array";
      "os.environ.__getitem__"; "export_to_bigwig"]);
    ("7. score", ["__getitem__"; "roc_auc_score"; "print"]) ].

Definition timeline : list string := concat (snd <$> phases).

(** ** Libraries to run the notebook against *)

(** Every call returns a fresh object. *)
Definition fresh : library N :=
  fun _ w => (Returns (VObj (lib_state w)),
              World (environ w) (N.succ (lib_state w))).

(** The reference genome cannot be read. *)
Definition missing_genome : pyexn :=
  Exn "FileNotFoundError" "resources/pseudo_genome.fa".

Definition unreadable : library N :=
  fun e w =>
    if String.eqb (callee e) "Bioseq.create_from_refgenome"
    then (Raises missing_genome, w)
    else fresh e w.

(** The n-th call that reaches the library raises [x]. *)
Definition raise_at (n : N) (x : pyexn) : library N :=
  fun e w => if N.eqb (lib_state w) n then (Raises x, w) else fresh e w.

Definition start : world N := World ∅ 0%N.

(** A library like [fresh] that also records, in the environment, which
    backend it runs on: it returns what [fresh] returns and leaves another
    world. *)
Definition chatty : library N :=
  fun _ w => (Returns (VObj (lib_state w)),
              World (<[ "KERAS_BACKEND" := "tensorflow" ]> (environ w))
                    (N.succ (lib_state w))).


(** ** Names, keywords and positions *)

(** The positions, counted from [i], of the calls that satisfy [P]. *)
Fixpoint positions (P : effect -> bool) (l : list effect) (i : nat)
    : list nat :=
  match l with
  | [] => []
  | e :: l' => (if P e then [i] else []) ++ positions P l' (S i)
  end.

(** The [as] clauses of cell 1: [import numpy as np] and
    [from keras import backend as K]. *)
Definition aliases : list (string * string) :=
  [("numpy", "np"); ("backend", "K")].

Definition alias (s : string) : string :=
  match List.find (fun a => String.eqb a.1 s) aliases with
  | Some a => a.2
  | None => s
  end.

(** The global name an import statement binds. *)
Definition bound_name (e : effect) : option string :=
  match e with
  | Import m => Some (alias m)
  | ImportFrom _ n => Some (alias n)
  | _ => None
  end.

(** The part of a dotted name before its first dot. *)
Fixpoint root (f : string) : string :=
  match f with
  | EmptyString => EmptyString
  | String c f' =>
      if Ascii.eqb c "."%char then EmptyString else String c (root f')
  end.

(** The global name a call refers to: the root of a dotted callee, [os]
    for [os.environ]; methods, attributes and items are reached through
    objects, and [print] is a builtin. *)
Definition uses (e : effect) : option string :=
  match e with
  | Call f _ _ => Some (root f)
  | SetEnviron _ _ | GetEnviron _ => Some "os"
  | _ => None
  end.

(** Every call of [l] refers to a name of [bound] or to one bound by an
    import earlier in [l]. *)
Fixpoint scoped (bound : list string) (l : list effect) : bool :=
  match l with
  | [] => true
  | e :: l' =>
      match uses e with Some n => named bound n | None => true end
      && scoped (match bound_name e with
                 | Some n => n :: bound
                 | None => bound
                 end) l'
  end.

(** The value a call passes for the keyword [k]. *)
Definition kwarg (k : string) (e : effect) : option pyval :=
  match e with
  | Call _ _ kw | CallObj _ _ kw | CallMethod _ _ _ kw => kw !! k
  | _ => None
  end.

(** The keywords under which the loaders take input files. *)
Definition path_keywords : list string := ["refgenome"; "roi"; "bedfiles"].

Definition takes_path (e : effect) : bool :=
  existsb (fun k => has_kw k e) path_keywords.

(** The metrics a [compile] call asks for. *)
Definition metrics_of (kw : kwargs) : list pyval :=
  match kw !! "metrics" with
  | Some (VList l) => l
  | _ => []
  end.

Definition is_export (e : effect) : bool :=
  String.eqb (callee e) "export_to_bigwig".

Definition is_scoring (e : effect) : bool :=
  String.eqb (callee e) "roc_auc_score".

Definition reads_environ (e : effect) : bool :=
  match e with
  | GetEnviron _ => true
  | _ => false
  end.

(** A print of three values: a label and two shapes, as in cell 7. *)
Definition reports_shapes (e : effect) : bool :=
  match e with
  | Print [_; _; _] => true
  | _ => false
  end.

(** Before position [i], the trace holds the call [e], and it returned
    [v]. *)
Definition earlier {L : Type} (tr : list (event L)) (i : nat) (e : effect)
    (v : pyval) : Prop :=
  exists j ev,
    (j < i)%nat /\ tr !! j = Some ev /\ ev_call ev = e /\
    ev_out ev = Returns v.

Definition is_format (e : effect) : bool :=
  String.eqb (callee e) "format".

(** An item read with a string key: [hist.history['loss']] and the like,
    and [os.environ['JANGGU_OUTPUT']]. *)
Definition reads_key (e : effect) : bool :=
  match e with
  | GetItem _ (VStr _) => true
  | GetEnviron _ => true
  | _ => false
  end.

(** A library like [fresh] whose every call also removes JANGGU_OUTPUT
    from the environment. *)
Definition forgetful : library N :=
  fun _ w => (Returns (VObj (lib_state w)),
              World (delete "JANGGU_OUTPUT" (environ w))
                    (N.succ (lib_state w))).

(** Modelled from the spec: janggu's Bioseq is not part of the notebook.
    The rule is the one the specification's claim about the model names:
    a dataset that Bioseq.create_from_refgenome returned for binsize [b]
    and order [o] reports as its shape (n, b - o + 1, 1, 4^o), for some
    number [n] of regions.  The rule is a property of a trace, so that it
    can be asked of any library. *)
Definition bioseq_shape_rule {L : Type} (tr : list (event L)) : Prop :=
  forall e dna b o s,
    returned tr e dna ->
    callee e = "Bioseq.create_from_refgenome" ->
    kwarg "binsize" e = Some (VInt b) ->
    kwarg "order" e = Some (VInt o) ->
    returned tr (GetAttr dna "shape") s ->
    exists n, s = VTuple [VInt n; VInt (b - o + 1); VInt 1; VInt (4 ^ o)].

(** A library that keeps the shape of every sequence dataset it made, by
    the rule above with 10 regions, and reports it when asked. *)
Definition shape_for (e : effect) : option pyval :=
  match kwarg "binsize" e, kwarg "order" e with
  | Some (VInt b), Some (VInt o) =>
      Some (VTuple [VInt 10; VInt (b - o + 1); VInt 1; VInt (4 ^ o)])
  | _, _ => None
  end.

Definition shaped : library (N * gmap N pyval) :=
  fun e w =>
    let n := (lib_state w).1 in
    let shapes := (lib_state w).2 in
    let made :=
      if String.eqb (callee e) "Bioseq.create_from_refgenome"
      then match shape_for e with
           | Some s => <[ n := s ]> shapes
           | None => shapes
           end
      else shapes in
    let answer :=
      match e with
      | GetAttr (VObj id) a =>
          match shapes !! id with
          | Some s => if String.eqb a "shape" then s else VObj n
          | None => VObj n
          end
      | _ => VObj n
      end in
    (Returns answer, World (environ w) (N.succ n, made)).

Definition shaped_start : world (N * gmap N pyval) := World ∅ (0%N, ∅).

(** ** Facts about every program *)

Section Generic.
Context {L A : Type}.
Implicit Types (h : library L) (p : prog A) (w : world L).

Lemma replay_shift p rs i :
  replay p (fun n => rs (S n)) i = replay p rs (S i).
Proof.
  revert i; induction p as [a | e k IH]; intros i; simpl.
  - reflexivity.
  - f_equal. apply IH.
Qed.

Lemma replay_results_cons p (ev : event L) tr :
  replay p (results (ev :: tr)) 1 = replay p (results tr) 0.
Proof.
  rewrite <- replay_shift. reflexivity.
Qed.

(** A run that completes made exactly the calls of [replay], each
    returning the recorded value. *)
Lemma run_completes h p w :
  completes (run h p w) ->
  view (trace (run h p w)) = ok <$> replay p (results (trace (run h p w))) 0.
Proof.
  revert w; induction p as [a | e k IH]; intros w; simpl.
  - reflexivity.
  - destruct (step h e w) as [[v | x] w1]; simpl.
    + intros Hc. unfold view, ok; simpl. f_equal.
      change (view (trace (run h (k v) w1)) =
              ok <$> replay (k v)
                (results (Event w e (Returns v) :: trace (run h (k v) w1))) 1).
      rewrite replay_results_cons. apply IH, Hc.
    + intros [a Ha]. discriminate.
Qed.

(** Whatever the library does, the calls made are an initial segment of
    the calls of [replay]. *)
Lemma run_prefix h p w :
  calls (trace (run h p w)) `prefix_of`
    (replay p (results (trace (run h p w))) 0).*1.
Proof.
  revert w; induction p as [a | e k IH]; intros w; simpl.
  - apply prefix_nil.
  - destruct (step h e w) as [[v | x] w1]; simpl.
    + unfold calls; simpl. apply prefix_cons.
      change (calls (trace (run h (k v) w1)) `prefix_of`
        (replay (k v)
           (results (Event w e (Returns v) :: trace (run h (k v) w1))) 1).*1).
      rewrite replay_results_cons. apply IH.
    + apply prefix_cons, prefix_nil.
Qed.

(** Every recorded outcome is the one the interpreter produced in the
    recorded world. *)
Lemma run_sound h p w :
  Forall (fun ev => (step h (ev_call ev) (ev_pre ev)).1 = ev_out ev)
         (trace (run h p w)).
Proof.
  revert w; induction p as [a | e k IH]; intros w; simpl.
  - constructor.
  - destruct (step h e w) as [[v | x] w1] eqn:Hs; simpl.
    + constructor; [simpl; rewrite Hs; reflexivity | apply IH].
    + constructor; [simpl; rewrite Hs; reflexivity | constructor].
Qed.

(** An exception is the last thing a run records, and it is the run's
    own result; a run that completes recorded no exception. *)
Lemma run_raises h p w :
  match final (run h p w) with
  | inl x =>
      exists pre ev,
        trace (run h p w) = pre ++ [ev] /\ ev_out ev = Raises x /\
        Forall (fun ev' => exists v, ev_out ev' = Returns v) pre
  | inr _ =>
      Forall (fun ev' => exists v, ev_out ev' = Returns v) (trace (run h p w))
  end.
Proof.
  revert w; induction p as [a | e k IH]; intros w; simpl.
  - constructor.
  - destruct (step h e w) as [[v | x] w1]; simpl.
    + specialize (IH v w1).
      destruct (final (run h (k v) w1)) as [x | a].
      * destruct IH as (pre & ev & Htr & Hev & Hpre).
        exists (Event w e (Returns v) :: pre), ev.
        rewrite Htr. split; [reflexivity | split; [exact Hev |]].
        constructor; [eexists; reflexivity | exact Hpre].
      * constructor; [eexists; reflexivity | exact IH].
    + exists [], (Event w e (Raises x)).
      split; [reflexivity | split; [reflexivity | constructor]].
Qed.

End Generic.

Section Worlds.
Context {L : Type}.
Implicit Types (h : library L) (w : world L) (tr : list (event L)).

Lemma run_chained {A : Type} h (p : prog A) w :
  chained h w (trace (run h p w)).
Proof.
  revert w; induction p as [a | e k IH]; intros w; simpl.
  - exact I.
  - destruct (step h e w) as [[v | x] w1] eqn:Hs; simpl; rewrite Hs; simpl.
    + split; [reflexivity | split; [reflexivity | apply IH]].
    + split; [reflexivity | split; [reflexivity | exact I]].
Qed.

Lemma chained_app h w tr1 tr2 :
  chained h w (tr1 ++ tr2) ->
  chained h w tr1 /\ chained h (after h w tr1) tr2.
Proof.
  revert w; induction tr1 as [| ev tr1 IH]; intros w; simpl.
  - intros H; split; [exact I | exact H].
  - intros (Hpre & Hout & Hrest).
    destruct (IH _ Hrest) as [H1 H2].
    split; [split; [exact Hpre | split; [exact Hout | exact H1]] | exact H2].
Qed.

Lemma step_keeps h k e w :
  keeps h k -> sets k e = false ->
  environ (step h e w).2 !! k = environ w !! k.
Proof.
  intros Hk Hs.
  destruct e as [| | | | | | | k' s | k' |]; simpl in *; try apply Hk.
  - apply lookup_insert_ne. intros ->.
  rewrite String.eqb_refl in Hs. discriminate.
  - destruct (environ w !! k'); reflexivity.
Qed.

(** While nothing assigns to [k], a call sees the value [k] had at the
    start. *)
Lemma chained_environ h k w mid ev rest :
  keeps h k -> chained h w (mid ++ ev :: rest) ->
  Forall (fun e => sets k e = false) (calls mid) ->
  environ (ev_pre ev) !! k = environ w !! k.
Proof.
  intros Hk. revert w; induction mid as [| ev' mid IH]; intros w; simpl.
  - intros (Hpre & _) _. rewrite Hpre. reflexivity.
  - intros (Hpre & _ & Hrest) Hns. inversion Hns as [| ? ? Hhd Htl]; subst.
    rewrite (IH _ Hrest Htl). apply step_keeps; assumption.
Qed.

(** Reading a variable returns what the environment holds. *)
Lemma step_getenv h k w v :
  (step h (GetEnviron k) w).1 = Returns v ->
  exists s, v = VStr s /\ environ w !! k = Some s /\
            (step h (GetEnviron k) w).2 = w.
Proof.
  simpl. destruct (environ w !! k) as [s |]; simpl; intros H.
  - injection H as <-. exists s. repeat split.
  - discriminate.
Qed.

Lemma step_setenv h k s w :
  environ (step h (SetEnviron k s) w).2 !! k = Some s.
Proof.
  simpl. apply lookup_insert_eq.
Qed.

(** A read of [k] returns the string the environment holds in the world
    of the read, and the next call is made in that same world. *)
Lemma chained_read h w before e1 e2 rest k v :
  chained h w (before ++ e1 :: e2 :: rest) ->
  ev_call e1 = GetEnviron k -> ev_out e1 = Returns v ->
  exists s, v = VStr s /\ environ (ev_pre e1) !! k = Some s /\
            ev_pre e2 = ev_pre e1.
Proof.
  intros Hch Hcall Hout.
  destruct (chained_app _ _ _ _ Hch) as [_ (Hpre1 & Hout1 & Hpre2 & _)].
  rewrite Hcall, Hout in Hout1.
  destruct (step_getenv _ _ _ _ Hout1) as (s & -> & Hs & Hw).
  exists s. rewrite Hpre1. split; [reflexivity | split; [exact Hs |]].
  rewrite Hpre2, Hcall. exact Hw.
Qed.

(** After an assignment to [k], and until the next one, calls see the
    assigned value, provided the library leaves [k] alone. *)
Lemma chained_assigned h w pre e0 mid e1 rest k s :
  keeps h k -> chained h w (pre ++ e0 :: mid ++ e1 :: rest) ->
  ev_call e0 = SetEnviron k s ->
  Forall (fun e => sets k e = false) (calls mid) ->
  environ (ev_pre e1) !! k = Some s.
Proof.
  intros Hk Hch Hcall Hns.
  destruct (chained_app _ _ _ _ Hch) as [_ (_ & _ & Hrest)].
  rewrite (chained_environ _ _ _ _ _ _ Hk Hrest Hns), Hcall.
  apply step_setenv.
Qed.

End Worlds.

(** ** The notebook's runs *)

Lemma view_calls {L : Type} (tr : list (event L)) : calls tr = (view tr).*1.
Proof.
  unfold calls, view. rewrite <- list_fmap_compose. reflexivity.
Qed.

Lemma script_replay (rs : nat -> pyval) : replay script rs 0 = script_calls rs.
Proof. reflexivity. Qed.

Lemma script_view {L : Type} (h : library L) (w : world L) :
  completes (run h script w) ->
  view (trace (run h script w)) =
    ok <$> script_calls (results (trace (run h script w))).
Proof.
  intros Hc. rewrite <- script_replay. apply run_completes, Hc.
Qed.

Lemma script_prefix {L : Type} (h : library L) (w : world L) :
  calls (trace (run h script w)) `prefix_of`
    (script_calls (results (trace (run h script w)))).*1.
Proof.
  rewrite <- script_replay. apply run_prefix.
Qed.

(** Membership in an explicit list, by position. *)
Ltac here :=
  repeat first [apply list_elem_of_here | apply list_elem_of_further].

Ltac in_view Hv :=
  unfold returned; rewrite Hv; here.

Lemma filter_prefix_length {A : Type} (p : A -> bool) (l1 l2 : list A) :
  l1 `prefix_of` l2 ->
  (length (List.filter p l1) <= length (List.filter p l2))%nat.
Proof.
  intros [k ->]. rewrite List.filter_app, length_app. lia.
Qed.

(** The run against [fresh] completes. *)
Lemma fresh_completes : completes (run fresh script start).
Proof. exists tt. vm_compute. reflexivity. Defined.

Lemma script_provenance {L : Type} (h : library L) (w : world L) :
  completes (run h script w) ->
  provenance (trace (run h script w)) (namespace (trace (run h script w))).
Proof.
  intros Hc. pose proof (script_view h w Hc) as Hv.
  set (tr := trace (run h script w)) in *. clearbody tr.
  unfold provenance, located, loaded_train, loaded_test, namespace; simpl.
  repeat split.
  1-4: in_view Hv.
  - exists (results tr 22%nat). repeat split; in_view Hv.
  - exists (results tr 25%nat). repeat split; in_view Hv.
  - in_view Hv.
Qed.

Lemma Forall_view {L : Type} (P : effect -> Prop) (tr : list (event L)) :
  Forall (fun c => P c.1) (view tr) -> Forall (fun ev => P (ev_call ev)) tr.
Proof.
  induction tr as [| ev tr IH]; simpl; intros H.
  - constructor.
  - inversion H; subst. constructor; [assumption | apply IH; assumption].
Qed.

Lemma view_app {L : Type} (t1 t2 : list (event L)) :
  view (t1 ++ t2) = view t1 ++ view t2.
Proof. apply fmap_app. Qed.

(** The events of a completed run around the assignment of the output
    directory and around the export. *)
Lemma script_events {L : Type} (h : library L) (w : world L) :
  completes (run h script w) ->
  let tr := trace (run h script w) in
  let cs := ok <$> script_calls (results tr) in
  exists pre e_set mid e_get e_exp rest,
    tr = pre ++ e_set :: mid ++ e_get :: e_exp :: rest /\
    view pre = take 16 cs /\
    Some (ev_call e_set, ev_out e_set) = cs !! 16%nat /\
    view mid = take 41 (drop 17 cs) /\
    Some (ev_call e_get, ev_out e_get) = cs !! 58%nat /\
    Some (ev_call e_exp, ev_out e_exp) = cs !! 59%nat /\
    view rest = drop 60 cs.
Proof.
  intros Hc tr cs. pose proof (script_view h w Hc) as Hv. fold tr cs in Hv.
  assert (Hsplit : cs = take 16 cs ++ (drop 16 (take 17 cs)) ++
                        take 41 (drop 17 cs) ++ drop 58 (take 60 cs) ++
                        drop 60 cs) by reflexivity.
  rewrite Hsplit in Hv. unfold view in Hv.
  apply fmap_app_inv in Hv as (pre & t1 & Hpre & Ht1 & ->).
  symmetry in Ht1.
  apply fmap_app_inv in Ht1 as (s1 & t2 & Hs1 & Ht2 & ->).
  symmetry in Ht2.
  apply fmap_app_inv in Ht2 as (mid & t3 & Hmid & Ht3 & ->).
  symmetry in Ht3.
  apply fmap_app_inv in Ht3 as (s2 & rest & Hs2 & Hrest & ->).
  symmetry in Hs1.
  apply fmap_cons_inv in Hs1 as (e_set & n1 & He_set & Hn1 & ->).
  symmetry in Hn1. apply fmap_nil_inv in Hn1 as ->.
  symmetry in Hs2.
  apply fmap_cons_inv in Hs2 as (e_get & n2 & He_get & Hn2 & ->).
  symmetry in Hn2.
  apply fmap_cons_inv in Hn2 as (e_exp & n3 & He_exp & Hn3 & ->).
  symmetry in Hn3. apply fmap_nil_inv in Hn3 as ->.
  exists pre, e_set, mid, e_get, e_exp, rest.
  split; [reflexivity |].
  split; [symmetry; exact Hpre |].
  split; [rewrite <- He_set; reflexivity |].
  split; [symmetry; exact Hmid |].
  split; [rewrite <- He_get; reflexivity |].
  split; [rewrite <- He_exp; reflexivity |].
  symmetry; exact Hrest.
Qed.

Lemma prefix_app_cases {A : Type} (l a b : list A) :
  l `prefix_of` a ++ b ->
  l `prefix_of` a \/ exists l', l = a ++ l' /\ l' `prefix_of` b.
Proof.
  revert l; induction a as [| x a IH]; intros l; simpl.
  - intros H. right. exists l. split; [reflexivity | exact H].
  - destruct l as [| y l].
    + intros _. left. apply prefix_nil.
    + intros [k Hk]. injection Hk as -> Hk.
      destruct (IH l) as [Hl | (l' & -> & Hl')].
      * exists k. exact Hk.
      * left. apply prefix_cons, Hl.
      * right. exists l'. split; [reflexivity | exact Hl'].
Qed.

Lemma Forall_prefix {A : Type} (P : A -> Prop) (l1 l2 : list A) :
  l1 `prefix_of` l2 -> Forall P l2 -> Forall P l1.
Proof.
  intros [k ->] H. apply Forall_app in H. tauto.
Qed.

(** The calls of a program depend on the libraries only through the values
    they returned. *)
Lemma replay_ext {A : Type} (p : prog A) (rs1 rs2 : nat -> pyval) (i : nat) :
  (forall n, rs1 n = rs2 n) -> replay p rs1 i = replay p rs2 i.
Proof.
  intros Hrs. revert i; induction p as [a | e k IH]; intros i; simpl.
  - reflexivity.
  - rewrite Hrs. f_equal. apply IH.
Qed.

Lemma fresh_keeps (k : string) : keeps fresh k.
Proof. intros e w. reflexivity. Defined.

Lemma positions_lookup (P : effect -> bool) (l : list effect) (i0 i : nat)
    (e : effect) :
  l !! i = Some e -> P e = true -> (i0 + i)%nat ∈ positions P l i0.
Proof.
  revert i0 i; induction l as [| e' l IH]; intros i0 i; simpl.
  - intros H. rewrite lookup_nil in H. discriminate.
  - destruct i as [| i]; simpl.
    + intros H HP. injection H as ->. rewrite HP.
      replace (i0 + 0)%nat with i0 by lia. apply list_elem_of_here.
    + intros H HP. apply elem_of_app. right.
      replace (i0 + S i)%nat with (S i0 + i)%nat by lia.
      apply IH; assumption.
Qed.

Lemma pluck {A B : Type} (l : list (A * B)) (a : A) (b : B) :
  (a, b) ∈ l -> exists i, l.*1 !! i = Some a /\ l.*2 !! i = Some b.
Proof.
  intros H. apply list_elem_of_lookup in H as [i Hi]. exists i.
  rewrite !list_lookup_fmap, Hi. split; reflexivity.
Qed.

(** ** The claims *)

(** C1.  The model is built by exactly these calls, in this order: an input
    of shape (200 - order + 1, 1, 4^order) = (198, 1, 64); one Conv2D with
    30 filters, kernel (21, 1) and relu activation, wrapped in DnaConv2D
    and applied to the input; one GlobalAveragePooling2D applied to the
    result; one Dense with 1 unit and sigmoid activation applied to that;
    and Model(xin, output).  No other call of an imported keras or janggu
    layer class, and no other application of an object, occurs in the run.
    The run loads the training DNA dataset with binsize=200 and order=3
    and reads its shape; when the library follows the shape rule of
    Bioseq, every value the run reads as that shape is (n, 198, 1, 64)
    for some n: its per-sample part is the shape given to Input. *)
Theorem model_architecture {L : Type} (h : library L) (w : world L) :
  completes (run h script w) ->
  let tr := trace (run h script w) in
  input_shape = [198; 1; 64] /\
  (exists f d,
     loaded_train tr f d /\
     dna_train_kw f !! "binsize" = Some (VInt 200) /\
     dna_train_kw f !! "order" = Some (VInt 3) /\
     (exists shape, returned tr (GetAttr (DNA d) "shape") shape) /\
     (bioseq_shape_rule tr ->
      forall shape,
        returned tr (GetAttr (DNA d) "shape") shape ->
        exists n, shape = VTuple (VInt n :: (VInt <$> input_shape)))) /\
  exists xin conv dnaconv t1 pool t2 dense output model,
    List.filter (builds_model ∘ fst) (view tr) = ok <$>
      [ (Call "Input" [VTuple (VInt <$> input_shape)] ∅, xin);
        (Call "Conv2D" [VInt 30; VTuple [VInt 21; VInt 1]]
           {[ "activation" := VStr "relu" ]}, conv);
        (Call "DnaConv2D" [conv] ∅, dnaconv);
        (CallObj dnaconv [xin] ∅, t1);
        (Call "GlobalAveragePooling2D" [] ∅, pool);
        (CallObj pool [t1] ∅, t2);
        (Call "Dense" [VInt 1] {[ "activation" := VStr "sigmoid" ]}, dense);
        (CallObj dense [t2] ∅, output);
        (Call "Model" [xin; output] ∅, model) ].
Proof.
  intros Hc tr.
  pose proof (script_view h w Hc) as Hv.
  destruct (script_provenance h w Hc) as (_ & Htrain & _).
  fold tr in Hv, Htrain.
  split; [reflexivity |]. split.
  - exists (g_files (namespace tr)), (g_data (namespace tr)).
    split; [exact Htrain |]. split; [reflexivity |]. split; [reflexivity |].
    split.
    + exists (results tr 27%nat). in_view Hv.
    + intros Hrule shape Hshape.
      destruct Htrain as (cover & Hdna & _).
      destruct (Hrule _ _ 200 3 shape Hdna eq_refl eq_refl eq_refl Hshape)
        as [n Hn].
      exists n. exact Hn.
  - rewrite Hv. do 9 eexists. reflexivity.
Qed.

Lemma shaped_obeys_rule :
  bioseq_shape_rule (trace (run shaped script shaped_start)).
Proof.
  intros e dna b o s He Hcallee Hb Ho Hs.
  unfold returned in He, Hs.
  apply pluck in He as (i & Hei & Hoi).
  apply pluck in Hs as (j & Hej & Hoj).
  remember (view (trace (run shaped script shaped_start))) as V eqn:HV.
  vm_compute in HV.
  assert (HPi : i ∈ positions
            (fun e => String.eqb (callee e) "Bioseq.create_from_refgenome")
            V.*1 0).
  { apply (positions_lookup _ _ 0 i e Hei). rewrite Hcallee. reflexivity. }
  assert (HPj : j ∈ positions
            (fun e => match e with
                      | GetAttr _ a => String.eqb a "shape"
                      | _ => false
                      end) V.*1 0).
  { apply (positions_lookup _ _ 0 j _ Hej). reflexivity. }
  rewrite HV in HPi, HPj, Hei, Hoi, Hej, Hoj. clear HV V.
  vm_compute in HPi. vm_compute in HPj.
  repeat (apply elem_of_cons in HPi as [-> | HPi]);
    [ | | apply elem_of_nil in HPi; contradiction ];
    vm_compute in Hei; vm_compute in Hoi;
    injection Hei as <-; injection Hoi as <-;
    vm_compute in Hb; vm_compute in Ho;
    injection Hb as <-; injection Ho as <-;
    (repeat (apply elem_of_cons in HPj as [-> | HPj]);
      [ | | | | apply elem_of_nil in HPj; contradiction ];
      vm_compute in Hej; vm_compute in Hoj;
      first [ discriminate Hej
            | injection Hoj as <-; eexists; reflexivity ]).
Qed.

Lemma model_architecture_witness :
  completes (run shaped script shaped_start) /\
  bioseq_shape_rule (trace (run shaped script shaped_start)) /\
  exists d n,
    returned (trace (run shaped script shaped_start))
      (GetAttr (DNA d) "shape")
      (VTuple (VInt n :: (VInt <$> input_shape))).
Proof.
  assert (Hc : completes (run shaped script shaped_start))
    by (exists tt; vm_compute; reflexivity).
  split; [exact Hc |]. split; [exact shaped_obeys_rule |].
  destruct (model_architecture shaped shaped_start Hc)
    as (_ & (f & d & _ & _ & _ & (shape & Hshape) & Hrule) & _).
  destruct (Hrule shaped_obeys_rule shape Hshape) as [n ->].
  exists d, n. exact Hshape.
Defined.

(** C2.  The run makes at most one prediction call.  When it completes,
    the calls that follow the fit (and the printing of its result) are, in
    this order: model.predict(DNA_TEST), the read of LABELS_TEST.gindexer,
    Cover.create_from_array('BindingProba', pred, gindexer) on the value
    predict returned, the read of the output directory, and
    export_to_bigwig on the container; no other call predicts. *)
Theorem predict_wrap_export {L : Type} (h : library L) (w : world L) :
  let tr := trace (run h script w) in
  (length (List.filter is_predicting (calls tr)) <= 1)%nat /\
  (completes (run h script w) ->
   exists g gindexer out ret before rest,
     provenance tr g /\
     (CallMethod (g_model g) "fit" [DNA (g_data g); LABELS (g_data g)] fit_kw,
      Returns (g_hist g)) ∈ before /\
     view tr = before ++ (ok <$>
       [ (CallMethod (g_model g) "predict" [DNA_TEST (g_data g)] ∅, g_pred g);
         (GetAttr (LABELS_TEST (g_data g)) "gindexer", gindexer);
         (Call "Cover.create_from_array"
            [VStr "BindingProba"; g_pred g; gindexer] ∅, g_cov_pred g);
         (GetEnviron "JANGGU_OUTPUT", out);
         (CallMethod (g_cov_pred g) "export_to_bigwig" []
            {[ "output_dir" := out ]}, ret) ]) ++ rest /\
     Forall (fun c => is_predicting c.1 = false) (before ++ rest)).
Proof.
  intros tr. split.
  - exact (filter_prefix_length is_predicting _ _ (script_prefix h w)).
  - intros Hc. pose proof (script_view h w Hc) as Hv.
    pose proof (script_provenance h w Hc) as Hg.
    fold tr in Hv, Hg. set (rs := results tr) in *.
    exists (namespace tr), (rs 56%nat), (rs 58%nat), (rs 59%nat).
    exists (ok <$> take 55 (script_calls rs)).
    exists (ok <$> drop 60 (script_calls rs)).
    split; [exact Hg |]. split; [| split].
    + cbn. here.
    + rewrite Hv. reflexivity.
    + cbn. repeat constructor.
Qed.

Lemma predict_wrap_export_witness :
  completes (run fresh script start) /\
  (length (List.filter is_predicting
             (calls (trace (run fresh script start)))) <= 1)%nat.
Proof.
  split; [exact fresh_completes |].
  exact (proj1 (predict_wrap_export fresh start)).
Defined.

(** C3.  In a completed run the training sequences are loaded by
    Bioseq.create_from_refgenome over the training regions with
    binsize=200, order=3 and cache=True; the training labels by
    Cover.create_from_bed over the same regions with binsize=200,
    resolution=200, cache=True and storage='sparse', and the result is
    wrapped in ReduceDim. *)
Theorem training_loading {L : Type} (h : library L) (w : world L) :
  completes (run h script w) ->
  let tr := trace (run h script w) in
  exists f dna cover labels kw_dna kw_labels,
    located tr f /\
    returned tr (Call "Bioseq.create_from_refgenome" [VStr "dna"] kw_dna) dna /\
    returned tr (Call "Cover.create_from_bed" [VStr "peaks"] kw_labels) cover /\
    returned tr (Call "ReduceDim" [cover] ∅) labels /\
    kw_dna !! "refgenome" = Some (REFGENOME f) /\
    kw_dna !! "roi" = Some (ROI_TRAIN_FILE f) /\
    kw_dna !! "binsize" = Some (VInt 200) /\
    kw_dna !! "order" = Some (VInt 3) /\
    kw_dna !! "cache" = Some (VBool true) /\
    kw_labels !! "roi" = Some (ROI_TRAIN_FILE f) /\
    kw_labels !! "bedfiles" = Some (PEAK_FILE f) /\
    kw_labels !! "binsize" = Some (VInt 200) /\
    kw_labels !! "resolution" = Some (VInt 200) /\
    kw_labels !! "cache" = Some (VBool true) /\
    kw_labels !! "storage" = Some (VStr "sparse").
Proof.
  intros Hc tr.
  destruct (script_provenance h w Hc) as (Hf & (cover & Hd & Hc' & Hr) & _).
  fold tr in Hf, Hd, Hc', Hr.
  exists (g_files (namespace tr)), (DNA (g_data (namespace tr))), cover,
    (LABELS (g_data (namespace tr))).
  exists (dna_train_kw (g_files (namespace tr))),
    (labels_train_kw (g_files (namespace tr))).
  repeat (split; [first [assumption | reflexivity] |]). reflexivity.
Qed.

Lemma training_loading_witness :
  completes (run fresh script start) /\
  exists f dna cover labels kw_dna kw_labels,
    located (trace (run fresh script start)) f /\
    returned (trace (run fresh script start))
      (Call "Bioseq.create_from_refgenome" [VStr "dna"] kw_dna) dna /\
    returned (trace (run fresh script start))
      (Call "Cover.create_from_bed" [VStr "peaks"] kw_labels) cover /\
    returned (trace (run fresh script start))
      (Call "ReduceDim" [cover] ∅) labels /\
    kw_dna !! "cache" = Some (VBool true) /\
    kw_labels !! "cache" = Some (VBool true).
Proof.
  split; [exact fresh_completes |].
  destruct (training_loading fresh start fresh_completes)
    as (f & dna & cover & labels & kw_dna & kw_labels & H).
  exists f, dna, cover, labels, kw_dna, kw_labels.
  destruct H
    as (H1 & H2 & H3 & H4 & _ & _ & _ & _ & H5 & _ & _ & _ & _ & H6 & _).
  repeat (split; [assumption |]). assumption.
Defined.

(** C4, as stated, fails: in the run against [fresh] the training and the
    test call of Bioseq.create_from_refgenome differ in a keyword other
    than the regions: the training call passes [cache], the test call does
    not. *)
Lemma test_loading_differs_in_cache :
  let f := Files (VObj 16) (VObj 17) (VObj 18) (VObj 19) in
  let e_train :=
    Call "Bioseq.create_from_refgenome" [VStr "dna"] (dna_train_kw f) in
  let e_test :=
    Call "Bioseq.create_from_refgenome" [VStr "dna"] (dna_test_kw f) in
    calls (trace (run fresh script start)) !! 21%nat = Some e_train /\
    calls (trace (run fresh script start)) !! 24%nat = Some e_test /\
    callee e_train = "Bioseq.create_from_refgenome" /\
    callee e_test = "Bioseq.create_from_refgenome" /\
    has_kw "cache" e_train = true /\
    has_kw "cache" e_test = false /\
    ~ same_but "roi" e_train e_test.
Proof.
  split; [vm_compute; reflexivity |].
  split; [vm_compute; reflexivity |].
  split; [reflexivity |]. split; [reflexivity |].
  split; [vm_compute; reflexivity |]. split; [vm_compute; reflexivity |].
  intros (_ & _ & Hkw). specialize (Hkw "cache"). 
  assert (Hne : "cache" <> "roi") by discriminate.
  specialize (Hkw Hne). vm_compute in Hkw. discriminate.
Qed.

(** C4, amended.  In a completed run the test datasets are loaded by the
    same two loaders with the same positional argument, and their keyword
    arguments are those of the training calls with the regions replaced by
    the test regions and the [cache] keyword removed; the result of
    Cover.create_from_bed is wrapped in ReduceDim as for training.  Only
    the two training loader calls pass [cache]. *)
Theorem test_loading {L : Type} (h : library L) (w : world L) :
  completes (run h script w) ->
  let tr := trace (run h script w) in
  exists f d,
    located tr f /\ loaded_train tr f d /\ loaded_test tr f d /\
    dna_test_kw f =
      delete "cache" (<[ "roi" := ROI_TEST_FILE f ]> (dna_train_kw f)) /\
    labels_test_kw f =
      delete "cache" (<[ "roi" := ROI_TEST_FILE f ]> (labels_train_kw f)) /\
    dna_train_kw f !! "roi" = Some (ROI_TRAIN_FILE f) /\
    labels_train_kw f !! "roi" = Some (ROI_TRAIN_FILE f) /\
    dna_train_kw f !! "cache" = Some (VBool true) /\
    labels_train_kw f !! "cache" = Some (VBool true) /\
    List.filter (has_kw "cache") (calls tr) =
      [ Call "Bioseq.create_from_refgenome" [VStr "dna"] (dna_train_kw f);
        Call "Cover.create_from_bed" [VStr "peaks"] (labels_train_kw f) ].
Proof.
  intros Hc tr.
  destruct (script_provenance h w Hc) as (Hf & Htr & Hte & _).
  pose proof (script_view h w Hc) as Hv.
  fold tr in Hf, Htr, Hte, Hv.
  exists (g_files (namespace tr)), (g_data (namespace tr)).
  repeat (split; [first [assumption | reflexivity] |]).
  rewrite view_calls, Hv. reflexivity.
Qed.

Lemma test_loading_witness :
  completes (run fresh script start) /\
  exists f d,
    loaded_test (trace (run fresh script start)) f d /\
    dna_test_kw f !! "cache" = None /\
    labels_test_kw f !! "cache" = None.
Proof.
  split; [exact fresh_completes |].
  destruct (test_loading fresh start fresh_completes)
    as (f & d & _ & _ & Hte & Hd & Hl & _).
  exists f, d. split; [exact Hte |].
  rewrite Hd, Hl. split; apply lookup_delete_eq.
Defined.

(** C5.  The run makes at most one fitting call.  When it completes, its
    only fitting call is model.fit(DNA, LABELS, epochs=100): the model is
    the one Model(...) returned, and the two positional arguments are the
    whole training sequence dataset and the whole training label
    dataset. *)
Theorem fit_once {L : Type} (h : library L) (w : world L) :
  let tr := trace (run h script w) in
  (length (List.filter is_fitting (calls tr)) <= 1)%nat /\
  (completes (run h script w) ->
   exists g,
     provenance tr g /\
     List.filter (is_fitting ∘ fst) (view tr) =
       [ (CallMethod (g_model g) "fit" [DNA (g_data g); LABELS (g_data g)]
            {[ "epochs" := VInt 100 ]}, Returns (g_hist g)) ]).
Proof.
  intros tr. split.
  - exact (filter_prefix_length is_fitting _ _ (script_prefix h w)).
  - intros Hc. exists (namespace tr).
    split; [exact (script_provenance h w Hc) |].
    pose proof (script_view h w Hc) as Hv. fold tr in Hv.
    rewrite Hv. reflexivity.
Qed.

Lemma fit_once_witness :
  completes (run fresh script start) /\
  exists g,
    provenance (trace (run fresh script start)) g /\
    List.filter (is_fitting ∘ fst) (view (trace (run fresh script start))) =
      [ (CallMethod (g_model g) "fit" [DNA (g_data g); LABELS (g_data g)]
           {[ "epochs" := VInt 100 ]}, Returns (g_hist g)) ].
Proof.
  split; [exact fresh_completes |].
  exact (proj2 (fit_once fresh start) fresh_completes).
Defined.

(** C6.  A completed run ends with these calls, in this order:
    Cover.create_from_array on the value [pred] that the run's only
    prediction call returned, the read of the output directory,
    export_to_bigwig, the read LABELS_TEST[:], roc_auc_score(labels, pred)
    on the labels just read and the same [pred], and the printing of the
    score.  Nothing is called between the export and the scoring except
    the read of the test labels. *)
Theorem auc_on_exported_predictions {L : Type} (h : library L) (w : world L) :
  completes (run h script w) ->
  let tr := trace (run h script w) in
  exists g gindexer out ret labels auc printed before,
    provenance tr g /\
    List.filter (is_predicting ∘ fst) (view tr) =
      [ (CallMethod (g_model g) "predict" [DNA_TEST (g_data g)] ∅,
         Returns (g_pred g)) ] /\
    view tr = before ++ (ok <$>
      [ (Call "Cover.create_from_array"
           [VStr "BindingProba"; g_pred g; gindexer] ∅, g_cov_pred g);
        (GetEnviron "JANGGU_OUTPUT", out);
        (CallMethod (g_cov_pred g) "export_to_bigwig" []
           {[ "output_dir" := out ]}, ret);
        (GetItem (LABELS_TEST (g_data g)) (VSlice VNone VNone VNone), labels);
        (Call "roc_auc_score" [labels; g_pred g] ∅, auc);
        (Print [VStr "AUC:"; auc], printed) ]).
Proof.
  intros Hc tr.
  pose proof (script_view h w Hc) as Hv.
  pose proof (script_provenance h w Hc) as Hg.
  fold tr in Hv, Hg. set (rs := results tr) in *.
  exists (namespace tr), (rs 56%nat), (rs 58%nat), (rs 59%nat), (rs 60%nat),
    (rs 61%nat), (rs 62%nat), (ok <$> take 57 (script_calls rs)).
  split; [exact Hg |]. rewrite Hv. split; reflexivity.
Qed.

Lemma auc_on_exported_predictions_witness :
  completes (run fresh script start) /\
  exists g,
    provenance (trace (run fresh script start)) g /\
    List.filter (is_predicting ∘ fst) (view (trace (run fresh script start))) =
      [ (CallMethod (g_model g) "predict" [DNA_TEST (g_data g)] ∅,
         Returns (g_pred g)) ].
Proof.
  split; [exact fresh_completes |].
  destruct (auc_on_exported_predictions fresh start fresh_completes)
    as (g & _ & _ & _ & _ & _ & _ & _ & Hg & Hp & _).
  exists g. split; assumption.
Defined.

(** C7.  Whatever the libraries do, every call of a run is within the
    frame ([permitted]: an import, a read, a print, or one of the
    functions and methods the frame names, with no place to write to)
    or is one of two calls: the assignment
    JANGGU_OUTPUT := '/home/wkopp/janggu_examples' or
    export_to_bigwig(output_dir=...); each of the two is made at most
    once.  When the run completes: only imports and the seeding of numpy
    precede the assignment; every call but the assignment and the export
    is within the frame, so the run makes no other assignment to the
    environment and writes no other file; the export's output_dir is the
    string that JANGGU_OUTPUT holds in the world the export is called in;
    and when the libraries leave that variable alone, this is the
    assigned path. *)
Theorem output_boundary {L : Type} (h : library L) (w : world L) :
  let tr := trace (run h script w) in
  Forall (fun e => permitted e = true \/ boundary e) (calls tr) /\
  (length (List.filter writes_environ (calls tr)) <= 1)%nat /\
  (length (List.filter is_export (calls tr)) <= 1)%nat /\
  (completes (run h script w) ->
   exists pre w0 mid w1 cov d ret rest,
     tr = pre
            ++ Event w0 (SetEnviron "JANGGU_OUTPUT" output_dir)
                 (Returns VNone)
            :: mid
            ++ Event w1 (GetEnviron "JANGGU_OUTPUT") (Returns (VStr d))
            :: Event w1 (CallMethod cov "export_to_bigwig" []
                           {[ "output_dir" := VStr d ]}) (Returns ret)
            :: rest /\
     Forall (fun ev => is_setup (ev_call ev) = true) pre /\
     Forall (fun ev => permitted (ev_call ev) = true) (pre ++ mid ++ rest) /\
     environ w1 !! "JANGGU_OUTPUT" = Some d /\
     (keeps h "JANGGU_OUTPUT" -> d = output_dir)).
Proof.
  intros tr. split; [| split; [| split]].
  - eapply Forall_prefix; [exact (script_prefix h w) |].
    generalize (results (trace (run h script w))). intros rs.
    unfold boundary. cbn.
    repeat (apply Forall_cons; split;
      [ first [ left; reflexivity
              | right; left; reflexivity
              | right; right; eexists _, _; reflexivity ]
      | ]).
    constructor.
  - exact (filter_prefix_length writes_environ _ _ (script_prefix h w)).
  - exact (filter_prefix_length is_export _ _ (script_prefix h w)).
  - intros Hc.
    pose proof (run_chained h script w) as Hch. fold tr in Hch.
    destruct (script_events h w Hc)
      as (pre & e_set & mid & e_get & e_exp & rest &
          Htr & Hpre & Hset & Hmid & Hget & Hexp & Hrest).
    fold tr in Htr, Hpre, Hset, Hmid, Hget, Hexp, Hrest.
    set (rs := results tr) in *.
    destruct e_set as [w0 c0 o0], e_get as [w1 c1 o1], e_exp as [w2 c2 o2].
    cbn in Hset, Hget, Hexp.
    injection Hset as -> ->. injection Hget as -> ->. injection Hexp as -> ->.
    rewrite Htr in Hch.
    assert (Hmid_calls : calls mid = (take 41 (drop 17 (script_calls rs))).*1).
    { rewrite view_calls, Hmid. reflexivity. }
    assert (Hch' : chained h w
      ((pre ++ Event w0 (SetEnviron "JANGGU_OUTPUT" output_dir)
                 (Returns (rs 16%nat)) :: mid)
       ++ Event w1 (GetEnviron "JANGGU_OUTPUT") (Returns (rs 58%nat))
       :: Event w2 (CallMethod (rs 57%nat) "export_to_bigwig" []
                      {[ "output_dir" := rs 58%nat ]}) (Returns (rs 59%nat))
       :: rest)).
    { rewrite <- app_assoc. exact Hch. }
    destruct (chained_read _ _ _ _ _ _ _ _ Hch' eq_refl eq_refl)
      as (d & Hd & Henv & Hw2).
    cbn in Henv, Hw2. subst w2.
    destruct (chained_app _ _ _ _ Hch) as [_ (_ & Hout0 & _)].
    cbn in Hout0. injection Hout0 as Hr16.
    exists pre, w0, mid, w1, (rs 57%nat), d, (rs 59%nat), rest.
    split; [| split; [| split; [| split]]].
    + rewrite Htr, <- Hr16, <- Hd. reflexivity.
    + apply (Forall_view (fun e => is_setup e = true)).
      rewrite Hpre. cbn. repeat constructor.
    + apply (Forall_view (fun e => permitted e = true)).
      rewrite !view_app, Hpre, Hmid, Hrest. cbn. repeat constructor.
    + exact Henv.
    + intros Hk.
      assert (Ha : environ w1 !! "JANGGU_OUTPUT" = Some output_dir).
      { apply (chained_assigned h w pre _ mid _ _ "JANGGU_OUTPUT" output_dir
                 Hk Hch eq_refl).
        rewrite Hmid_calls. cbn. repeat constructor. }
      rewrite Henv in Ha. injection Ha as ->. reflexivity.
Qed.

Lemma output_boundary_witness :
  completes (run fresh script start) /\
  keeps fresh "JANGGU_OUTPUT" /\
  exists (w1 : world N) (d : string),
    environ w1 !! "JANGGU_OUTPUT" = Some d /\ d = output_dir.
Proof.
  split; [exact fresh_completes |]. split; [exact (fresh_keeps _) |].
  destruct (proj2 (proj2 (proj2 (output_boundary fresh start)))
              fresh_completes)
    as (_ & _ & _ & w1 & _ & d & _ & _ & _ & _ & _ & Henv & Hd).
  exists w1, d. split; [exact Henv | exact (Hd (fresh_keeps _))].
Defined.



(** Every call that reaches the libraries can fail, and when it does the
    run ends with its exception, right after that call.  (The assignment
    to and the read of [os.environ] are entries of the trace that the
    libraries do not see, hence the three cases of the length.) *)
Lemma every_library_call_can_fail (n : nat) (x : pyexn) :
  (n < 61)%nat ->
  final (run (raise_at (N.of_nat n) x) script start) = inl x /\
  length (trace (run (raise_at (N.of_nat n) x) script start)) =
    (if (n <? 16)%nat then S n
     else if (n <? 57)%nat then S (S n)
     else S (S (S n))).
Proof.
  intros Hn.
  do 61 (destruct n as [| n]; [vm_compute; split; reflexivity |]).
  lia.
Qed.



(** The n-th call of a program depends on the libraries only through the
    values the calls before it returned. *)
Lemma replay_ext_upto {A : Type} (p : prog A) (rs1 rs2 : nat -> pyval)
    (i n : nat) :
  (forall j, (j < n)%nat -> rs1 (i + j)%nat = rs2 (i + j)%nat) ->
  (replay p rs1 i).*1 !! n = (replay p rs2 i).*1 !! n.
Proof.
  revert i n; induction p as [a | e k IH]; intros i n Hrs; simpl.
  - reflexivity.
  - destruct n as [| n]; [reflexivity |]. simpl.
    assert (H0 : rs1 i = rs2 i).
    { specialize (Hrs 0%nat ltac:(lia)).
      rewrite Nat.add_0_r in Hrs. exact Hrs. }
    rewrite H0. apply IH. intros j Hj.
    specialize (Hrs (S j) ltac:(lia)).
    replace (i + S j)%nat with (S i + j)%nat in Hrs by lia. exact Hrs.
Qed.

(** What the calls of a trace returned can be read off its view. *)
Lemma results_view {L1 L2 : Type} (tr1 : list (event L1))
    (tr2 : list (event L2)) :
  view tr1 = view tr2 -> forall n, results tr1 n = results tr2 n.
Proof.
  intros H n. unfold results.
  assert (Hn : view tr1 !! n = view tr2 !! n) by (rewrite H; reflexivity).
  unfold view in Hn. rewrite !list_lookup_fmap in Hn.
  destruct (tr1 !! n) as [[u1 c1 o1] |], (tr2 !! n) as [[u2 c2 o2] |];
    simpl in Hn; try discriminate; [| reflexivity].
  injection Hn as _ ->. reflexivity.
Qed.

(** C10.  In every run np.random.seed(1234) is the first call that is not
    an import, and it is made at most once.  A run that completes makes
    it: its calls are imports, then np.random.seed(1234), then all the
    other steps (the loading of the datasets, the construction of the
    model and the fit among them), none of which seeds again.  Two
    completed runs, against any two libraries in any two worlds, make
    calls of the same names in the same order; the n-th calls of the two
    runs are the same, arguments included, as soon as the libraries
    returned the same values to the calls before; so when the libraries
    returned the same values throughout, the two sequences of calls are
    the same. *)
Theorem seeded_and_repeatable {L1 L2 : Type}
    (h1 : library L1) (w1 : world L1) (h2 : library L2) (w2 : world L2) :
  let tr1 := trace (run h1 script w1) in
  let tr2 := trace (run h2 script w2) in
  (exists pre post,
     calls tr1 = pre ++ post /\
     Forall (fun e => is_import e = true) pre /\
     (post = [] \/
      exists post',
        post = Call "np.random.seed" [VInt 1234] ∅ :: post' /\
        Forall (fun e => is_seed e = false) post')) /\
  (completes (run h1 script w1) ->
   exists pre post,
     calls tr1 = pre ++ Call "np.random.seed" [VInt 1234] ∅ :: post /\
     Forall (fun e => is_import e = true) pre /\
     Forall (fun e => is_seed e = false) post /\
     callee <$> post = drop 16 timeline) /\
  (completes (run h1 script w1) -> completes (run h2 script w2) ->
   callee <$> calls tr1 = callee <$> calls tr2 /\
   (forall n,
      (forall j, (j < n)%nat -> results tr1 j = results tr2 j) ->
      calls tr1 !! n = calls tr2 !! n) /\
   ((forall n, results tr1 n = results tr2 n) -> calls tr1 = calls tr2)).
Proof.
  intros tr1 tr2. split; [| split].
  - pose proof (script_prefix h1 w1) as Hp. fold tr1 in Hp.
    set (rs := results tr1) in *.
    change ((script_calls rs).*1) with
      ((take 15 (script_calls rs)).*1 ++ (drop 15 (script_calls rs)).*1) in Hp.
    apply prefix_app_cases in Hp as [Hp | (l' & Hl & Hp)].
    + exists (calls tr1), []. rewrite app_nil_r.
      split; [reflexivity | split; [| left; reflexivity]].
      eapply Forall_prefix; [exact Hp |]. cbn. repeat constructor.
    + exists ((take 15 (script_calls rs)).*1), l'.
      split; [exact Hl | split; [cbn; repeat constructor |]].
      destruct l' as [| e l']; [left; reflexivity | right].
      destruct Hp as [k Hk]. cbn in Hk. injection Hk as <- Hk.
      exists l'. split; [reflexivity |].
      eapply Forall_prefix; [exists k; exact Hk |]. repeat constructor.
  - intros Hc1. pose proof (script_view h1 w1 Hc1) as Hv1. fold tr1 in Hv1.
    set (rs := results tr1) in *.
    exists ((take 15 (script_calls rs)).*1), ((drop 16 (script_calls rs)).*1).
    split; [rewrite view_calls, Hv1; reflexivity |].
    split; [cbn; repeat constructor |].
    split; [cbn; repeat constructor | reflexivity].
  - intros Hc1 Hc2.
    pose proof (script_view h1 w1 Hc1) as Hv1.
    pose proof (script_view h2 w2 Hc2) as Hv2.
    fold tr1 in Hv1. fold tr2 in Hv2. split; [| split].
    + rewrite !view_calls, Hv1, Hv2. reflexivity.
    + intros n Hrs. rewrite !view_calls, Hv1, Hv2.
      change ((ok <$> script_calls (results tr1)).*1) with
        ((script_calls (results tr1)).*1).
      change ((ok <$> script_calls (results tr2)).*1) with
        ((script_calls (results tr2)).*1).
      rewrite <- !script_replay. apply replay_ext_upto. exact Hrs.
    + intros Hrs. rewrite !view_calls, Hv1, Hv2.
      rewrite <- !script_replay.
      rewrite (replay_ext script _ _ 0 Hrs). reflexivity.
Qed.

Lemma seeded_and_repeatable_witness :
  completes (run fresh script start) /\
  completes (run chatty script start) /\
  (forall n,
     results (trace (run fresh script start)) n =
     results (trace (run chatty script start)) n) /\
  environ (world_after (run fresh script start)) !! "KERAS_BACKEND" = None /\
  environ (world_after (run chatty script start)) !! "KERAS_BACKEND" =
    Some "tensorflow" /\
  calls (trace (run fresh script start)) =
    calls (trace (run chatty script start)) /\
  exists pre post,
    calls (trace (run fresh script start)) =
      pre ++ Call "np.random.seed" [VInt 1234] ∅ :: post /\
    Forall (fun e => is_import e = true) pre.
Proof.
  assert (H' : completes (run chatty script start))
    by (exists tt; vm_compute; reflexivity).
  assert (Hrs : forall n,
            results (trace (run fresh script start)) n =
            results (trace (run chatty script start)) n)
    by (apply results_view; vm_compute; reflexivity).
  pose proof (seeded_and_repeatable fresh start chatty start) as H.
  cbv zeta in H. destruct H as (_ & Hseed & Hsame).
  destruct (Hsame fresh_completes H') as (_ & _ & Hcalls).
  destruct (Hseed fresh_completes) as (pre & post & Hsplit & Hpre & _).
  split; [exact fresh_completes |]. split; [exact H' |].
  split; [exact Hrs |].
  split; [vm_compute; reflexivity |]. split; [vm_compute; reflexivity |].
  split; [exact (Hcalls Hrs) |].
  exists pre, post. split; assumption.
Defined.

(** ** Runs that may stop early *)

Section Unfinished.
Context {L A : Type}.
Implicit Types (h : library L) (p : prog A) (w : world L).

Lemma replay_lookup_snd p rs i0 j e v :
  replay p rs i0 !! j = Some (e, v) -> v = rs (i0 + j)%nat.
Proof.
  revert i0 j; induction p as [a | e' k IH]; intros i0 j; simpl.
  - intros H. rewrite lookup_nil in H. discriminate.
  - destruct j as [| j]; simpl.
    + intros H. injection H as _ <-. f_equal. lia.
    + intros H. rewrite (IH _ _ _ H). f_equal. lia.
Qed.

(** The i-th call of any run is the i-th call of [replay]. *)
Lemma run_lookup h p w i ev :
  trace (run h p w) !! i = Some ev ->
  replay p (results (trace (run h p w))) 0 !! i =
    Some (ev_call ev, results (trace (run h p w)) i).
Proof.
  intros Hev.
  assert (Hc : calls (trace (run h p w)) !! i = Some (ev_call ev)).
  { unfold calls. rewrite list_lookup_fmap, Hev. reflexivity. }
  pose proof (prefix_lookup_Some _ _ _ _ Hc (run_prefix h p w)) as Hr.
  rewrite list_lookup_fmap in Hr.
  destruct (replay p (results (trace (run h p w))) 0 !! i)
    as [[e v] |] eqn:Hrep; [| discriminate].
  simpl in Hr. injection Hr as ->.
  rewrite (replay_lookup_snd _ _ _ _ _ _ Hrep). reflexivity.
Qed.

(** Every call made before another one returned. *)
Lemma run_before h p w i j ev :
  trace (run h p w) !! i = Some ev -> (j < i)%nat ->
  exists ev',
    trace (run h p w) !! j = Some ev' /\
    ev_out ev' = Returns (results (trace (run h p w)) j).
Proof.
  intros Hev Hji.
  assert (Hlen : (i < length (trace (run h p w)))%nat)
    by (apply lookup_lt_is_Some; eexists; exact Hev).
  destruct (lookup_lt_is_Some_2 (trace (run h p w)) j) as [ev' Hev'];
    [lia |].
  exists ev'. split; [exact Hev' |].
  assert (Hret : exists v, ev_out ev' = Returns v).
  { pose proof (run_raises h p w) as Hr.
    destruct (final (run h p w)) as [x | a].
    - destruct Hr as (pre & last & Htr & _ & Hpre).
      rewrite Htr in Hev', Hlen. rewrite length_app in Hlen. simpl in Hlen.
      rewrite lookup_app_l in Hev' by lia.
      rewrite Forall_lookup in Hpre. exact (Hpre _ _ Hev').
    - rewrite Forall_lookup in Hr. exact (Hr _ _ Hev'). }
  destruct Hret as [v Hv]. rewrite Hv. unfold results. rewrite Hev'.
  destruct ev' as [w' e' o']. simpl in Hv. subst o'. reflexivity.
Qed.

End Unfinished.

(** The i-th call of any run of the notebook. *)
Lemma script_at {L : Type} (h : library L) (w : world L) (i : nat)
    (ev : event L) :
  trace (run h script w) !! i = Some ev ->
  script_calls (results (trace (run h script w))) !! i =
    Some (ev_call ev, results (trace (run h script w)) i).
Proof.
  intros Hev. rewrite <- script_replay. apply run_lookup, Hev.
Qed.

(** Where in a run of the notebook a call that satisfies [P] can be. *)
Lemma script_position {L : Type} (h : library L) (w : world L)
    (P : effect -> bool) (i : nat) (ev : event L) :
  trace (run h script w) !! i = Some ev -> P (ev_call ev) = true ->
  i ∈ positions P (script_calls (results (trace (run h script w)))).*1 0.
Proof.
  intros Hev HP. apply (positions_lookup P _ 0 i (ev_call ev)); [| exact HP].
  rewrite list_lookup_fmap, (script_at h w i ev Hev). reflexivity.
Qed.

(** The j-th call of a run of the notebook that got further than j. *)
Lemma script_before {L : Type} (h : library L) (w : world L) (i j : nat)
    (ev : event L) (c : effect * pyval) :
  trace (run h script w) !! i = Some ev -> (j < i)%nat ->
  script_calls (results (trace (run h script w))) !! j = Some c ->
  exists ev',
    trace (run h script w) !! j = Some ev' /\
    ev_call ev' = c.1 /\ ev_out ev' = Returns c.2.
Proof.
  intros Hev Hji Hc.
  destruct (run_before h script w i j ev Hev Hji) as (ev' & Hev' & Hout).
  exists ev'. split; [exact Hev' |].
  pose proof (script_at h w j ev' Hev') as Hat.
  assert (Heq : c = (ev_call ev', results (trace (run h script w)) j))
    by congruence.
  rewrite Heq. split; [reflexivity | exact Hout].
Qed.

Lemma script_earlier {L : Type} (h : library L) (w : world L) (i j : nat)
    (ev : event L) (e : effect) (v : pyval) :
  trace (run h script w) !! i = Some ev -> (j < i)%nat ->
  script_calls (results (trace (run h script w))) !! j = Some (e, v) ->
  earlier (trace (run h script w)) i e v.
Proof.
  intros Hev Hji Hc.
  destruct (script_before h w i j ev _ Hev Hji Hc)
    as (ev' & Hev' & Hcall & Hout).
  exists j, ev'. repeat split; assumption.
Qed.

Lemma scoped_sound (l : list effect) (bound : list string) (i : nat)
    (e : effect) (n : string) :
  scoped bound l = true -> l !! i = Some e -> uses e = Some n ->
  named bound n = true \/
  exists j e', (j < i)%nat /\ l !! j = Some e' /\ bound_name e' = Some n.
Proof.
  revert bound i; induction l as [| e0 l IH]; intros bound i; simpl.
  - intros _ H. rewrite lookup_nil in H. discriminate.
  - intros Hs. apply andb_prop in Hs as [Hhd Htl].
    destruct i as [| i]; simpl.
    + intros H Hu. injection H as ->. rewrite Hu in Hhd. left. exact Hhd.
    + intros H Hu.
      destruct (IH _ _ Htl H Hu) as [Hn | (j & e' & Hj & He' & Hb)].
      * destruct (bound_name e0) as [n0 |] eqn:Hb0; [| left; exact Hn].
        simpl in Hn. apply orb_prop in Hn as [Hn | Hn]; [| left; exact Hn].
        apply String.eqb_eq in Hn as ->.
        right. exists 0%nat, e0. split; [lia | split; [reflexivity | exact Hb0]].
      * right. exists (S j), e'. split; [lia | split; assumption].
Qed.

(** ** Further properties of the notebook *)

(** X1.  In every run, a call that refers to a global name (the root of a
    dotted callee, or [os] for [os.environ]) comes after an import that
    binds that name and that returned; so no call can fail for a name that
    was not imported.  The names [K] and [Image], which the notebook also
    imports, are referred to by no call. *)
Theorem imports_before_use {L : Type} (h : library L) (w : world L)
    (i : nat) (ev : event L) (n : string) :
  trace (run h script w) !! i = Some ev ->
  uses (ev_call ev) = Some n ->
  (exists j ev' v,
     (j < i)%nat /\ trace (run h script w) !! j = Some ev' /\
     bound_name (ev_call ev') = Some n /\ ev_out ev' = Returns v) /\
  n <> "K" /\ n <> "Image".
Proof.
  intros Hev Hu.
  pose proof (script_at h w i ev Hev) as Hat.
  set (rs := results (trace (run h script w))) in *.
  assert (Hl : (script_calls rs).*1 !! i = Some (ev_call ev))
    by (rewrite list_lookup_fmap, Hat; reflexivity).
  split.
  - assert (Hsc : scoped [] (script_calls rs).*1 = true) by reflexivity.
    destruct (scoped_sound _ [] i _ n Hsc Hl Hu)
      as [Hn | (j & e' & Hj & He' & Hb)]; [discriminate |].
    rewrite list_lookup_fmap in He'.
    destruct (script_calls rs !! j) as [c |] eqn:Hc; [| discriminate].
    injection He' as <-.
    destruct (script_before h w i j ev c Hev Hj Hc)
      as (ev' & Hev' & Hcall & Hout).
    exists j, ev', c.2. rewrite Hcall. repeat split; assumption.
  - assert (Hall : Forall (fun e => uses e <> Some "K" /\ uses e <> Some "Image")
                     (script_calls rs).*1).
    { cbn. repeat constructor; discriminate. }
    rewrite Forall_lookup in Hall. destruct (Hall _ _ Hl) as [HK HI].
    split; intros ->; [apply HK | apply HI]; exact Hu.
Qed.

Lemma imports_before_use_witness :
  exists ev j ev',
    trace (run fresh script start) !! 15%nat = Some ev /\
    uses (ev_call ev) = Some "np" /\
    (j < 15)%nat /\
    trace (run fresh script start) !! j = Some ev' /\
    bound_name (ev_call ev') = Some "np".
Proof.
  destruct (trace (run fresh script start) !! 15%nat) as [ev |] eqn:Hev;
    [| vm_compute in Hev; discriminate].
  assert (Hu : uses (ev_call ev) = Some "np")
    by (vm_compute in Hev; injection Hev as <-; reflexivity).
  destruct (imports_before_use fresh start 15 ev "np" Hev Hu)
    as [(j & ev' & v & Hj & Hev' & Hb & _) _].
  exists ev, j, ev'. repeat split; assumption.
Defined.

(** X2.  In every run, a fitting call is model.fit(DNA, LABELS,
    epochs=100) on a model that an earlier call Model(...) returned and on
    which model.compile(optimizer='adadelta', loss='binary_crossentropy',
    metrics=['acc']) was called, and returned, in between. *)
Theorem compiled_before_fit {L : Type} (h : library L) (w : world L)
    (i : nat) (ev : event L) :
  trace (run h script w) !! i = Some ev ->
  is_fitting (ev_call ev) = true ->
  exists model dna labels xin output j0 j ev0 ev' v,
    ev_call ev = CallMethod model "fit" [dna; labels] fit_kw /\
    (j0 < j < i)%nat /\
    trace (run h script w) !! j0 = Some ev0 /\
    ev_call ev0 = Call "Model" [xin; output] ∅ /\
    ev_out ev0 = Returns model /\
    trace (run h script w) !! j = Some ev' /\
    ev_call ev' = CallMethod model "compile" []
      {[ "optimizer" := VStr "adadelta";
         "loss" := VStr "binary_crossentropy";
         "metrics" := VList [VStr "acc"] ]} /\
    ev_out ev' = Returns v.
Proof.
  intros Hev HP.
  pose proof (script_position h w is_fitting i ev Hev HP) as Hi.
  pose proof (script_at h w i ev Hev) as Hat.
  set (rs := results (trace (run h script w))) in *.
  change (i ∈ [44%nat]) in Hi. apply list_elem_of_singleton in Hi. subst i.
  assert (Hcall : ev_call ev =
            CallMethod (rs 41%nat) "fit" [rs 21%nat; rs 23%nat] fit_kw).
  { change (script_calls rs !! 44%nat) with
      (Some (CallMethod (rs 41%nat) "fit" [rs 21%nat; rs 23%nat] fit_kw,
             rs 44%nat)) in Hat.
    congruence. }
  destruct (script_before h w 44 41 ev _ Hev ltac:(lia) eq_refl)
    as (ev0 & Hev0 & Hcall0 & Hout0).
  destruct (script_before h w 44 42 ev _ Hev ltac:(lia) eq_refl)
    as (ev' & Hev' & Hcall' & Hout').
  exists (rs 41%nat), (rs 21%nat), (rs 23%nat), (rs 33%nat), (rs 40%nat).
  exists 41%nat, 42%nat, ev0, ev', (rs 42%nat).
  split; [exact Hcall |]. split; [lia |].
  repeat split; assumption.
Qed.

Lemma compiled_before_fit_witness :
  exists ev model j ev',
    trace (run fresh script start) !! 44%nat = Some ev /\
    is_fitting (ev_call ev) = true /\
    (j < 44)%nat /\
    trace (run fresh script start) !! j = Some ev' /\
    callee (ev_call ev') = "compile" /\
    ev_call ev = CallMethod model "fit" [VObj 20; VObj 22] fit_kw.
Proof.
  destruct (trace (run fresh script start) !! 44%nat) as [ev |] eqn:Hev;
    [| vm_compute in Hev; discriminate].
  assert (Hf : is_fitting (ev_call ev) = true)
    by (vm_compute in Hev; injection Hev as <-; reflexivity).
  destruct (compiled_before_fit fresh start 44 ev Hev Hf)
    as (model & dna & labels & xin & output & j0 & j & ev0 & ev' & v &
        Hcall & Hj & _ & _ & _ & Hev' & Hcall' & _).
  exists ev, (VObj 40), j, ev'.
  split; [reflexivity |]. split; [exact Hf |]. split; [lia |].
  split; [exact Hev' |]. split; [rewrite Hcall'; reflexivity |].
  vm_compute in Hev. injection Hev as <-. reflexivity.
Defined.

(** X3.  In every run, an export is cov_pred.export_to_bigwig(...) on the
    container that an earlier Cover.create_from_array('BindingProba',
    pred, gindexer) returned, where [pred] was returned by an earlier
    model.predict on the model whose fit had returned before that: no
    track is written unless fitting, prediction and wrapping all
    succeeded. *)
Theorem export_after_training {L : Type} (h : library L) (w : world L)
    (i : nat) (ev : event L) :
  trace (run h script w) !! i = Some ev ->
  is_export (ev_call ev) = true ->
  exists model dna labels hist dna_test pred gindexer cov out j1 j2 j3 e1 e2 e3,
    (j1 < j2 < j3)%nat /\ (j3 < i)%nat /\
    trace (run h script w) !! j1 = Some e1 /\
    ev_call e1 = CallMethod model "fit" [dna; labels] fit_kw /\
    ev_out e1 = Returns hist /\
    trace (run h script w) !! j2 = Some e2 /\
    ev_call e2 = CallMethod model "predict" [dna_test] ∅ /\
    ev_out e2 = Returns pred /\
    trace (run h script w) !! j3 = Some e3 /\
    ev_call e3 = Call "Cover.create_from_array"
                   [VStr "BindingProba"; pred; gindexer] ∅ /\
    ev_out e3 = Returns cov /\
    ev_call ev = CallMethod cov "export_to_bigwig" []
                   {[ "output_dir" := out ]}.
Proof.
  intros Hev HP.
  pose proof (script_position h w is_export i ev Hev HP) as Hi.
  pose proof (script_at h w i ev Hev) as Hat.
  set (rs := results (trace (run h script w))) in *.
  change (i ∈ [59%nat]) in Hi. apply list_elem_of_singleton in Hi. subst i.
  assert (Hcall : ev_call ev =
            CallMethod (rs 57%nat) "export_to_bigwig" []
              {[ "output_dir" := rs 58%nat ]}).
  { change (script_calls rs !! 59%nat) with
      (Some (CallMethod (rs 57%nat) "export_to_bigwig" []
               {[ "output_dir" := rs 58%nat ]}, rs 59%nat)) in Hat.
    congruence. }
  destruct (script_before h w 59 44 ev _ Hev ltac:(lia) eq_refl)
    as (e1 & He1 & Hc1 & Ho1).
  destruct (script_before h w 59 55 ev _ Hev ltac:(lia) eq_refl)
    as (e2 & He2 & Hc2 & Ho2).
  destruct (script_before h w 59 57 ev _ Hev ltac:(lia) eq_refl)
    as (e3 & He3 & Hc3 & Ho3).
  exists (rs 41%nat), (rs 21%nat), (rs 23%nat), (rs 44%nat), (rs 24%nat).
  exists (rs 55%nat), (rs 56%nat), (rs 57%nat), (rs 58%nat).
  exists 44%nat, 55%nat, 57%nat, e1, e2, e3.
  split; [lia |]. split; [lia |].
  repeat split; assumption.
Qed.

Lemma export_after_training_witness :
  exists ev j ev',
    trace (run unreadable script start) !! 59%nat = None /\
    trace (run fresh script start) !! 59%nat = Some ev /\
    is_export (ev_call ev) = true /\
    (j < 59)%nat /\
    trace (run fresh script start) !! j = Some ev' /\
    is_fitting (ev_call ev') = true.
Proof.
  destruct (trace (run fresh script start) !! 59%nat) as [ev |] eqn:Hev;
    [| vm_compute in Hev; discriminate].
  assert (Hx : is_export (ev_call ev) = true)
    by (vm_compute in Hev; injection Hev as <-; reflexivity).
  destruct (export_after_training fresh start 59 ev Hev Hx)
    as (model & dna & labels & hist & dna_test & pred & gindexer & cov &
        out & j1 & j2 & j3 & e1 & e2 & e3 & Hj & Hj3 & He1 & Hc1 & _).
  exists ev, j1, e1.
  split; [vm_compute; reflexivity |]. split; [reflexivity |].
  split; [exact Hx |]. split; [lia |]. split; [exact He1 |].
  rewrite Hc1. reflexivity.
Defined.

(** After the assignment of cell 3, and as long as the libraries leave the
    variable alone, every call is made with JANGGU_OUTPUT set to the
    assigned path. *)
Lemma script_environ {L : Type} (h : library L) (w : world L) (i : nat)
    (ev : event L) :
  keeps h "JANGGU_OUTPUT" ->
  trace (run h script w) !! i = Some ev -> (16 < i)%nat ->
  environ (ev_pre ev) !! "JANGGU_OUTPUT" = Some output_dir.
Proof.
  intros Hk Hev Hi.
  pose proof (run_chained h script w) as Hch.
  destruct (script_before h w i 16 ev _ Hev Hi eq_refl)
    as (e0 & He0 & Hc0 & _). simpl in Hc0.
  pose proof (take_drop_middle _ _ _ Hev) as Hs1.
  assert (Ht : take i (trace (run h script w)) !! 16%nat = Some e0)
    by (rewrite lookup_take_lt by lia; exact He0).
  pose proof (take_drop_middle _ _ _ Ht) as Hs2.
  rewrite <- Hs1, <- Hs2, <- app_assoc, <- app_comm_cons in Hch.
  apply (chained_assigned h w _ e0 _ ev _ "JANGGU_OUTPUT" output_dir
           Hk Hch Hc0).
  unfold calls. apply Forall_fmap, Forall_lookup. intros m e Hm. simpl.
  rewrite lookup_drop in Hm. apply lookup_take_Some in Hm as [Hm Hlt].
  destruct (sets "JANGGU_OUTPUT" (ev_call e)) eqn:Hs; [| reflexivity].
  pose proof (script_position h w (sets "JANGGU_OUTPUT") _ e Hm Hs) as Hp.
  change (17 + m ∈ [16])%nat in Hp.
  apply list_elem_of_singleton in Hp. lia.
Qed.

(** X4.  When the libraries leave JANGGU_OUTPUT alone, every call of a run
    other than the imports, the seeding and the assignment itself is made
    with JANGGU_OUTPUT set to '/home/wkopp/janggu_examples' (the loaders
    that cache, among them), and the read of [os.environ] returns that
    path: under this condition it cannot raise KeyError. *)
Theorem output_dir_in_force {L : Type} (h : library L) (w : world L)
    (i : nat) (ev : event L) :
  keeps h "JANGGU_OUTPUT" ->
  trace (run h script w) !! i = Some ev ->
  is_setup (ev_call ev) = false ->
  writes_environ (ev_call ev) = false ->
  environ (ev_pre ev) !! "JANGGU_OUTPUT" = Some output_dir /\
  (reads_environ (ev_call ev) = true ->
   ev_call ev = GetEnviron "JANGGU_OUTPUT" /\
   ev_out ev = Returns (VStr output_dir)).
Proof.
  intros Hk Hev Hsetup Hwrites.
  set (P := fun e => negb (is_setup e) && negb (writes_environ e)).
  assert (HP : P (ev_call ev) = true)
    by (unfold P; rewrite Hsetup, Hwrites; reflexivity).
  pose proof (script_position h w P i ev Hev HP) as Hi.
  assert (Hall : Forall (fun n => (16 < n)%nat)
            (positions P
               (script_calls (results (trace (run h script w)))).*1 0)).
  { cbn. repeat (constructor; [lia |]). constructor. }
  rewrite Forall_forall in Hall. specialize (Hall i Hi).
  pose proof (script_environ h w i ev Hk Hev Hall) as Henv.
  split; [exact Henv |]. intros Hread.
  pose proof (script_position h w reads_environ i ev Hev Hread) as Hi'.
  pose proof (script_at h w i ev Hev) as Hat.
  set (rs := results (trace (run h script w))) in *.
  change (i ∈ [58%nat]) in Hi'. apply list_elem_of_singleton in Hi'. subst i.
  assert (Hcall : ev_call ev = GetEnviron "JANGGU_OUTPUT").
  { change (script_calls rs !! 58%nat) with
      (Some (GetEnviron "JANGGU_OUTPUT", rs 58%nat)) in Hat.
    congruence. }
  split; [exact Hcall |].
  pose proof (run_sound h script w) as Hs.
  rewrite Forall_lookup in Hs. specialize (Hs _ _ Hev). simpl in Hs.
  rewrite Hcall in Hs. simpl in Hs. rewrite Henv in Hs.
  symmetry. exact Hs.
Qed.

Lemma output_dir_in_force_witness :
  exists ev,
    keeps fresh "JANGGU_OUTPUT" /\
    trace (run fresh script start) !! 21%nat = Some ev /\
    has_kw "cache" (ev_call ev) = true /\
    environ (ev_pre ev) !! "JANGGU_OUTPUT" = Some output_dir.
Proof.
  destruct (trace (run fresh script start) !! 21%nat) as [ev |] eqn:Hev;
    [| vm_compute in Hev; discriminate].
  assert (H1 : is_setup (ev_call ev) = false)
    by (vm_compute in Hev; injection Hev as <-; reflexivity).
  assert (H2 : writes_environ (ev_call ev) = false)
    by (vm_compute in Hev; injection Hev as <-; reflexivity).
  assert (H3 : has_kw "cache" (ev_call ev) = true)
    by (vm_compute in Hev; injection Hev as <-; reflexivity).
  exists ev. split; [exact (fresh_keeps _) |]. split; [reflexivity |].
  split; [exact H3 |].
  exact (proj1 (output_dir_in_force fresh start 21 ev (fresh_keeps _)
                  Hev H1 H2)).
Defined.

(** X5.  If JANGGU_OUTPUT is missing from the environment when the
    notebook reads it, the run ends there with KeyError for that name:
    the read is the last entry of the trace, and neither the export nor
    the scoring is ever called. *)
Theorem missing_output_dir {L : Type} (h : library L) (w : world L)
    (i : nat) (ev : event L) (k : string) :
  trace (run h script w) !! i = Some ev ->
  ev_call ev = GetEnviron k ->
  environ (ev_pre ev) !! k = None ->
  final (run h script w) = inl (Exn "KeyError" k) /\
  length (trace (run h script w)) = S i /\
  Forall (fun e => is_export e = false /\ is_scoring e = false)
         (calls (trace (run h script w))).
Proof.
  intros Hev Hcall Hnone.
  assert (Hout : ev_out ev = Raises (Exn "KeyError" k)).
  { pose proof (run_sound h script w) as Hs.
    rewrite Forall_lookup in Hs. specialize (Hs _ _ Hev). simpl in Hs.
    rewrite Hcall in Hs. simpl in Hs. rewrite Hnone in Hs.
    symmetry. exact Hs. }
  assert (Hi : i = 58%nat).
  { assert (Hr : reads_environ (ev_call ev) = true)
      by (rewrite Hcall; reflexivity).
    pose proof (script_position h w reads_environ i ev Hev Hr) as Hp.
    change (i ∈ [58%nat]) in Hp. apply list_elem_of_singleton in Hp.
    exact Hp. }
  assert (Hlast : final (run h script w) = inl (Exn "KeyError" k) /\
                  length (trace (run h script w)) = S i).
  { pose proof (run_raises h script w) as Hr.
    destruct (final (run h script w)) as [x | a].
    - destruct Hr as (pre & last & Htr & Hlast & Hpre).
      rewrite Htr in Hev |- *. rewrite length_app. simpl.
      destruct (decide (i < length pre)%nat) as [Hlt | Hge].
      + rewrite lookup_app_l in Hev by exact Hlt.
        rewrite Forall_lookup in Hpre. destruct (Hpre _ _ Hev) as [v Hv].
        rewrite Hv in Hout. discriminate.
      + rewrite lookup_app_r in Hev by lia.
        destruct (i - length pre)%nat as [| m] eqn:Hm; simpl in Hev.
        * injection Hev as ->. rewrite Hout in Hlast. injection Hlast as <-.
          split; [reflexivity | lia].
        * rewrite lookup_nil in Hev. discriminate.
    - rewrite Forall_lookup in Hr. destruct (Hr _ _ Hev) as [v Hv].
      rewrite Hv in Hout. discriminate. }
  destruct Hlast as [Hfin Hlen]. split; [exact Hfin |]. split; [exact Hlen |].
  unfold calls. apply Forall_fmap, Forall_lookup. intros j e Hj. simpl.
  pose proof (lookup_lt_Some _ _ _ Hj) as Hjlt.
  split.
  - destruct (is_export (ev_call e)) eqn:Hx; [| reflexivity].
    pose proof (script_position h w is_export j e Hj Hx) as Hp.
    change (j ∈ [59%nat]) in Hp. apply list_elem_of_singleton in Hp. lia.
  - destruct (is_scoring (ev_call e)) eqn:Hx; [| reflexivity].
    pose proof (script_position h w is_scoring j e Hj Hx) as Hp.
    change (j ∈ [61%nat]) in Hp. apply list_elem_of_singleton in Hp. lia.
Qed.

Lemma missing_output_dir_witness :
  exists ev,
    trace (run forgetful script start) !! 58%nat = Some ev /\
    ev_call ev = GetEnviron "JANGGU_OUTPUT" /\
    environ (ev_pre ev) !! "JANGGU_OUTPUT" = None /\
    final (run forgetful script start) = inl (Exn "KeyError" "JANGGU_OUTPUT") /\
    length (trace (run forgetful script start)) = 59%nat.
Proof.
  destruct (trace (run forgetful script start) !! 58%nat) as [ev |] eqn:Hev;
    [| vm_compute in Hev; discriminate].
  assert (H1 : ev_call ev = GetEnviron "JANGGU_OUTPUT")
    by (vm_compute in Hev; injection Hev as <-; reflexivity).
  assert (H2 : environ (ev_pre ev) !! "JANGGU_OUTPUT" = None)
    by (vm_compute in Hev; injection Hev as <-; reflexivity).
  destruct (missing_output_dir forgetful start 58 ev "JANGGU_OUTPUT"
              Hev H1 H2) as (Hf & Hl & _).
  exists ev. repeat split; assumption.
Defined.

Lemma kwarg_has_kw (k : string) (e : effect) (v : pyval) :
  kwarg k e = Some v -> has_kw k e = true.
Proof.
  destruct e; simpl; intros H; try discriminate; rewrite H; reflexivity.
Qed.

(** X6.  In every run, whatever a call passes as [refgenome], [roi] or
    [bedfiles] is a value that an earlier call
    resource_filename('janggu', name) returned: the notebook gives the
    loaders no input path of its own. *)
Theorem input_files_located {L : Type} (h : library L) (w : world L)
    (i : nat) (ev : event L) (k : string) (v : pyval) :
  trace (run h script w) !! i = Some ev ->
  k ∈ path_keywords ->
  kwarg k (ev_call ev) = Some v ->
  exists j ev' name,
    (j < i)%nat /\ trace (run h script w) !! j = Some ev' /\
    ev_call ev' = Call "resource_filename" [VStr "janggu"; VStr name] ∅ /\
    ev_out ev' = Returns v.
Proof.
  intros Hev Hk Hkw.
  assert (Htp : takes_path (ev_call ev) = true).
  { unfold takes_path. apply existsb_exists. exists k.
    split; [apply list_elem_of_In; exact Hk | exact (kwarg_has_kw _ _ _ Hkw)]. }
  pose proof (script_position h w takes_path i ev Hev Htp) as Hi.
  pose proof (script_at h w i ev Hev) as Hat.
  change (i ∈ [21; 22; 24; 25]%nat) in Hi.
  assert (Hlt : (20 < i)%nat).
  { repeat (apply elem_of_cons in Hi as [-> | Hi]); try lia.
    apply elem_of_nil in Hi. contradiction. }
  destruct (script_before h w i 17 ev _ Hev ltac:(lia) eq_refl)
    as (f17 & Hf17 & Hc17 & Ho17).
  destruct (script_before h w i 18 ev _ Hev ltac:(lia) eq_refl)
    as (f18 & Hf18 & Hc18 & Ho18).
  destruct (script_before h w i 19 ev _ Hev ltac:(lia) eq_refl)
    as (f19 & Hf19 & Hc19 & Ho19).
  destruct (script_before h w i 20 ev _ Hev ltac:(lia) eq_refl)
    as (f20 & Hf20 & Hc20 & Ho20).
  cbn [fst snd] in Hc17, Ho17, Hc18, Ho18, Hc19, Ho19, Hc20, Ho20.
  remember (results (trace (run h script w))) as rs eqn:Hrs in *.
  set (f := Files (rs 17%nat) (rs 18%nat) (rs 19%nat) (rs 20%nat)).
  assert (Hcall :
    ev_call ev = Call "Bioseq.create_from_refgenome" [VStr "dna"]
                   (dna_train_kw f) \/
    ev_call ev = Call "Cover.create_from_bed" [VStr "peaks"]
                   (labels_train_kw f) \/
    ev_call ev = Call "Bioseq.create_from_refgenome" [VStr "dna"]
                   (dna_test_kw f) \/
    ev_call ev = Call "Cover.create_from_bed" [VStr "peaks"]
                   (labels_test_kw f)).
  { repeat (apply elem_of_cons in Hi as [-> | Hi]).
    - left.
      change (script_calls rs !! 21%nat) with
        (Some (Call "Bioseq.create_from_refgenome" [VStr "dna"]
                 (dna_train_kw f), rs 21%nat)) in Hat.
      congruence.
    - right; left.
      change (script_calls rs !! 22%nat) with
        (Some (Call "Cover.create_from_bed" [VStr "peaks"]
                 (labels_train_kw f), rs 22%nat)) in Hat.
      congruence.
    - right; right; left.
      change (script_calls rs !! 24%nat) with
        (Some (Call "Bioseq.create_from_refgenome" [VStr "dna"]
                 (dna_test_kw f), rs 24%nat)) in Hat.
      congruence.
    - right; right; right.
      change (script_calls rs !! 25%nat) with
        (Some (Call "Cover.create_from_bed" [VStr "peaks"]
                 (labels_test_kw f), rs 25%nat)) in Hat.
      congruence.
    - apply elem_of_nil in Hi. contradiction. }
  assert (Hv : v = rs 17%nat \/ v = rs 18%nat \/ v = rs 19%nat \/
               v = rs 20%nat).
  { unfold path_keywords in Hk. subst f.
    repeat (apply elem_of_cons in Hk as [-> | Hk]);
      try (apply elem_of_nil in Hk; contradiction);
      destruct Hcall as [Hc | [Hc | [Hc | Hc]]];
      rewrite Hc in Hkw; vm_compute in Hkw;
      first [discriminate Hkw | injection Hkw as <-; tauto]. }
  destruct Hv as [-> | [-> | [-> | ->]]].
  - exists 17%nat, f17, "resources/pseudo_genome.fa".
    split; [lia |]. repeat split; assumption.
  - exists 18%nat, f18, "resources/roi_train.bed".
    split; [lia |]. repeat split; assumption.
  - exists 19%nat, f19, "resources/roi_test.bed".
    split; [lia |]. repeat split; assumption.
  - exists 20%nat, f20, "resources/scores.bed".
    split; [lia |]. repeat split; assumption.
Qed.

Lemma input_files_located_witness :
  exists ev j ev',
    trace (run fresh script start) !! 25%nat = Some ev /\
    kwarg "bedfiles" (ev_call ev) = Some (VObj 19) /\
    (j < 25)%nat /\
    trace (run fresh script start) !! j = Some ev' /\
    callee (ev_call ev') = "resource_filename" /\
    ev_out ev' = Returns (VObj 19).
Proof.
  destruct (trace (run fresh script start) !! 25%nat) as [ev |] eqn:Hev;
    [| vm_compute in Hev; discriminate].
  assert (Hkw : kwarg "bedfiles" (ev_call ev) = Some (VObj 19))
    by (vm_compute in Hev; injection Hev as <-; vm_compute; reflexivity).
  assert (Hk : "bedfiles" ∈ path_keywords)
    by (apply list_elem_of_In; simpl; tauto).
  destruct (input_files_located fresh start 25 ev "bedfiles" (VObj 19)
              Hev Hk Hkw) as (j & ev' & name & Hj & Hev' & Hc & Ho).
  exists ev, j, ev'. split; [reflexivity |]. split; [exact Hkw |].
  split; [exact Hj |]. split; [exact Hev' |].
  split; [rewrite Hc; reflexivity | exact Ho].
Defined.

(** X7.  In every run, an item read by a string key is one of two kinds.
    Either it is os.environ['JANGGU_OUTPUT'], the variable the notebook
    assigned earlier in the run; or it is a read from the [history] of the
    object that model.fit returned, and the key is 'loss' or one of the
    metrics that the earlier model.compile on the same model asked for.
    The notebook reads no key that it did not set or ask keras to
    record. *)
Theorem history_keys_requested {L : Type} (h : library L) (w : world L)
    (i : nat) (ev : event L) :
  trace (run h script w) !! i = Some ev ->
  reads_key (ev_call ev) = true ->
  (ev_call ev = GetEnviron "JANGGU_OUTPUT" /\
   exists v,
     earlier (trace (run h script w)) i
       (SetEnviron "JANGGU_OUTPUT" output_dir) v) \/
  exists model dna labels hist history key j0 j1 j2 e0 e1 e2 kw v,
    ev_call ev = GetItem history (VStr key) /\
    (j0 < j1 < j2)%nat /\ (j2 < i)%nat /\
    trace (run h script w) !! j0 = Some e0 /\
    ev_call e0 = CallMethod model "compile" [] kw /\
    ev_out e0 = Returns v /\
    trace (run h script w) !! j1 = Some e1 /\
    ev_call e1 = CallMethod model "fit" [dna; labels] fit_kw /\
    ev_out e1 = Returns hist /\
    trace (run h script w) !! j2 = Some e2 /\
    ev_call e2 = GetAttr hist "history" /\
    ev_out e2 = Returns history /\
    (key = "loss" \/ VStr key ∈ metrics_of kw).
Proof.
  intros Hev HP.
  pose proof (script_position h w reads_key i ev Hev HP) as Hi.
  pose proof (script_at h w i ev Hev) as Hat.
  set (rs := results (trace (run h script w))) in *.
  change (i ∈ [47; 50; 58]%nat) in Hi.
  assert (Hlt : (46 < i)%nat).
  { repeat (apply elem_of_cons in Hi as [-> | Hi]); try lia.
    apply elem_of_nil in Hi. contradiction. }
  destruct (script_before h w i 42 ev _ Hev ltac:(lia) eq_refl)
    as (e0 & He0 & Hc0 & Ho0).
  destruct (script_before h w i 44 ev _ Hev ltac:(lia) eq_refl)
    as (e1 & He1 & Hc1 & Ho1).
  repeat (apply elem_of_cons in Hi as [-> | Hi]).
  - right.
    exists (rs 41%nat), (rs 21%nat), (rs 23%nat), (rs 44%nat).
    destruct (script_before h w 47 46 ev _ Hev ltac:(lia) eq_refl)
      as (e2 & He2 & Hc2 & Ho2).
    exists (rs 46%nat), "loss", 42%nat, 44%nat, 46%nat, e0, e1, e2.
    exists compile_kw, (rs 42%nat).
    split.
    { change (script_calls rs !! 47%nat) with
        (Some (GetItem (rs 46%nat) (VStr "loss"), rs 47%nat)) in Hat.
      congruence. }
    split; [lia |]. split; [lia |].
    repeat (split; [assumption |]). left. reflexivity.
  - right.
    exists (rs 41%nat), (rs 21%nat), (rs 23%nat), (rs 44%nat).
    destruct (script_before h w 50 49 ev _ Hev ltac:(lia) eq_refl)
      as (e2 & He2 & Hc2 & Ho2).
    exists (rs 49%nat), "acc", 42%nat, 44%nat, 49%nat, e0, e1, e2.
    exists compile_kw, (rs 42%nat).
    split.
    { change (script_calls rs !! 50%nat) with
        (Some (GetItem (rs 49%nat) (VStr "acc"), rs 50%nat)) in Hat.
      congruence. }
    split; [lia |]. split; [lia |].
    repeat (split; [assumption |]). right.
    apply (list_elem_of_here (VStr "acc") []).
  - left. split.
    { change (script_calls rs !! 58%nat) with
        (Some (GetEnviron "JANGGU_OUTPUT", rs 58%nat)) in Hat.
      congruence. }
    exists (rs 16%nat).
    exact (script_earlier h w 58 16 ev _ _ Hev ltac:(lia) eq_refl).
  - apply elem_of_nil in Hi. contradiction.
Qed.

Lemma history_keys_requested_witness :
  exists ev history kw,
    trace (run fresh script start) !! 50%nat = Some ev /\
    ev_call ev = GetItem history (VStr "acc") /\
    VStr "acc" ∈ metrics_of kw.
Proof.
  destruct (trace (run fresh script start) !! 50%nat) as [ev |] eqn:Hev;
    [| vm_compute in Hev; discriminate].
  assert (Hr : reads_key (ev_call ev) = true)
    by (vm_compute in Hev; injection Hev as <-; reflexivity).
  assert (Hcall : ev_call ev = GetItem (VObj 48) (VStr "acc"))
    by (vm_compute in Hev; injection Hev as <-; reflexivity).
  destruct (history_keys_requested fresh start 50 ev Hev Hr)
    as [[Henv _] |
        (model & dna & labels & hist & history & key & j0 & j1 & j2 &
         e0 & e1 & e2 & kw & v & Hc & _ & _ & _ & _ & _ & _ & _ & _ & _ &
         _ & _ & Hkey)].
  - rewrite Hcall in Henv. discriminate.
  - rewrite Hcall in Hc. injection Hc as <- <-.
    destruct Hkey as [Hl | Hm]; [discriminate |].
    exists ev, (VObj 48), kw. split; [reflexivity |]. split; assumption.
Defined.

(** X8.  In every run, the report line is formatted from the template
    'loss: {}, acc: {}' with, in this order, the last item ([-1]) of what
    an earlier read of the key 'loss' returned and the last item of what
    an earlier read of the key 'acc' returned: the first placeholder gets
    the final loss, the second the final accuracy. *)
Theorem report_line {L : Type} (h : library L) (w : world L)
    (i : nat) (ev : event L) :
  trace (run h script w) !! i = Some ev ->
  is_format (ev_call ev) = true ->
  exists h1 h2 losses accs loss acc j1 j2 j3 j4 e1 e2 e3 e4,
    ev_call ev =
      CallMethod (VStr "loss: {}, acc: {}") "format" [loss; acc] ∅ /\
    (j1 < j2 < j3)%nat /\ (j3 < j4 < i)%nat /\
    trace (run h script w) !! j1 = Some e1 /\
    ev_call e1 = GetItem h1 (VStr "loss") /\ ev_out e1 = Returns losses /\
    trace (run h script w) !! j2 = Some e2 /\
    ev_call e2 = GetItem losses (VInt (-1)) /\ ev_out e2 = Returns loss /\
    trace (run h script w) !! j3 = Some e3 /\
    ev_call e3 = GetItem h2 (VStr "acc") /\ ev_out e3 = Returns accs /\
    trace (run h script w) !! j4 = Some e4 /\
    ev_call e4 = GetItem accs (VInt (-1)) /\ ev_out e4 = Returns acc.
Proof.
  intros Hev HP.
  pose proof (script_position h w is_format i ev Hev HP) as Hi.
  pose proof (script_at h w i ev Hev) as Hat.
  set (rs := results (trace (run h script w))) in *.
  change (i ∈ [52%nat]) in Hi. apply list_elem_of_singleton in Hi. subst i.
  destruct (script_before h w 52 47 ev _ Hev ltac:(lia) eq_refl)
    as (e1 & He1 & Hc1 & Ho1).
  destruct (script_before h w 52 48 ev _ Hev ltac:(lia) eq_refl)
    as (e2 & He2 & Hc2 & Ho2).
  destruct (script_before h w 52 50 ev _ Hev ltac:(lia) eq_refl)
    as (e3 & He3 & Hc3 & Ho3).
  destruct (script_before h w 52 51 ev _ Hev ltac:(lia) eq_refl)
    as (e4 & He4 & Hc4 & Ho4).
  exists (rs 46%nat), (rs 49%nat), (rs 47%nat), (rs 50%nat).
  exists (rs 48%nat), (rs 51%nat), 47%nat, 48%nat, 50%nat, 51%nat.
  exists e1, e2, e3, e4.
  split.
  { change (script_calls rs !! 52%nat) with
      (Some (CallMethod (VStr "loss: {}, acc: {}") "format"
               [rs 48%nat; rs 51%nat] ∅, rs 52%nat)) in Hat.
    congruence. }
  split; [lia |]. split; [lia |].
  repeat split; assumption.
Qed.

Lemma report_line_witness :
  exists ev loss acc,
    trace (run fresh script start) !! 52%nat = Some ev /\
    is_format (ev_call ev) = true /\
    ev_call ev =
      CallMethod (VStr "loss: {}, acc: {}") "format" [loss; acc] ∅.
Proof.
  destruct (trace (run fresh script start) !! 52%nat) as [ev |] eqn:Hev;
    [| vm_compute in Hev; discriminate].
  assert (Hf : is_format (ev_call ev) = true)
    by (vm_compute in Hev; injection Hev as <-; reflexivity).
  destruct (report_line fresh start 52 ev Hev Hf)
    as (h1 & h2 & losses & accs & loss & acc & j1 & j2 & j3 & j4 &
        e1 & e2 & e3 & e4 & Hc & _).
  exists ev, loss, acc. split; [reflexivity |]. split; assumption.
Defined.

(** X9.  In every run, a line that reports shapes is labelled for the
    data it shows: the line 'training set:' shows the shapes read from the
    sequence and label datasets that were loaded over the regions of
    resources/roi_train.bed, the line 'test set:' those loaded over the
    regions of resources/roi_test.bed. *)
Theorem shapes_labelled {L : Type} (h : library L) (w : world L)
    (i : nat) (ev : event L) :
  trace (run h script w) !! i = Some ev ->
  reports_shapes (ev_call ev) = true ->
  let tr := trace (run h script w) in
  exists label file roi dna cover labels s1 s2 kw1 kw2,
    ev_call ev = Print [VStr label; s1; s2] /\
    ((label = "training set:" /\ file = "resources/roi_train.bed") \/
     (label = "test set:" /\ file = "resources/roi_test.bed")) /\
    earlier tr i (Call "resource_filename" [VStr "janggu"; VStr file] ∅) roi /\
    earlier tr i (Call "Bioseq.create_from_refgenome" [VStr "dna"] kw1) dna /\
    kw1 !! "roi" = Some roi /\
    earlier tr i (Call "Cover.create_from_bed" [VStr "peaks"] kw2) cover /\
    kw2 !! "roi" = Some roi /\
    earlier tr i (Call "ReduceDim" [cover] ∅) labels /\
    earlier tr i (GetAttr dna "shape") s1 /\
    earlier tr i (GetAttr labels "shape") s2.
Proof.
  intros Hev HP tr.
  pose proof (script_position h w reports_shapes i ev Hev HP) as Hi.
  pose proof (script_at h w i ev Hev) as Hat.
  fold tr in Hat. set (rs := results tr) in *.
  set (f := Files (rs 17%nat) (rs 18%nat) (rs 19%nat) (rs 20%nat)).
  change (i ∈ [29; 32]%nat) in Hi.
  repeat (apply elem_of_cons in Hi as [-> | Hi]).
  - exists "training set:", "resources/roi_train.bed", (rs 18%nat).
    exists (rs 21%nat), (rs 22%nat), (rs 23%nat), (rs 27%nat), (rs 28%nat).
    exists (dna_train_kw f), (labels_train_kw f).
    split.
    { change (script_calls rs !! 29%nat) with
        (Some (Print [VStr "training set:"; rs 27%nat; rs 28%nat],
               rs 29%nat)) in Hat.
      congruence. }
    split; [left; split; reflexivity |].
    split; [exact (script_earlier h w 29 18 ev _ _ Hev ltac:(lia) eq_refl) |].
    split; [exact (script_earlier h w 29 21 ev _ _ Hev ltac:(lia) eq_refl) |].
    split; [reflexivity |].
    split; [exact (script_earlier h w 29 22 ev _ _ Hev ltac:(lia) eq_refl) |].
    split; [reflexivity |].
    split; [exact (script_earlier h w 29 23 ev _ _ Hev ltac:(lia) eq_refl) |].
    split; [exact (script_earlier h w 29 27 ev _ _ Hev ltac:(lia) eq_refl) |].
    exact (script_earlier h w 29 28 ev _ _ Hev ltac:(lia) eq_refl).
  - exists "test set:", "resources/roi_test.bed", (rs 19%nat).
    exists (rs 24%nat), (rs 25%nat), (rs 26%nat), (rs 30%nat), (rs 31%nat).
    exists (dna_test_kw f), (labels_test_kw f).
    split.
    { change (script_calls rs !! 32%nat) with
        (Some (Print [VStr "test set:"; rs 30%nat; rs 31%nat],
               rs 32%nat)) in Hat.
      congruence. }
    split; [right; split; reflexivity |].
    split; [exact (script_earlier h w 32 19 ev _ _ Hev ltac:(lia) eq_refl) |].
    split; [exact (script_earlier h w 32 24 ev _ _ Hev ltac:(lia) eq_refl) |].
    split; [reflexivity |].
    split; [exact (script_earlier h w 32 25 ev _ _ Hev ltac:(lia) eq_refl) |].
    split; [reflexivity |].
    split; [exact (script_earlier h w 32 26 ev _ _ Hev ltac:(lia) eq_refl) |].
    split; [exact (script_earlier h w 32 30 ev _ _ Hev ltac:(lia) eq_refl) |].
    exact (script_earlier h w 32 31 ev _ _ Hev ltac:(lia) eq_refl).
  - apply elem_of_nil in Hi. contradiction.
Qed.

Lemma shapes_labelled_witness :
  exists ev label s1 s2,
    trace (run fresh script start) !! 32%nat = Some ev /\
    reports_shapes (ev_call ev) = true /\
    ev_call ev = Print [VStr label; s1; s2] /\
    (label = "training set:" \/ label = "test set:").
Proof.
  destruct (trace (run fresh script start) !! 32%nat) as [ev |] eqn:Hev;
    [| vm_compute in Hev; discriminate].
  assert (Hr : reports_shapes (ev_call ev) = true)
    by (vm_compute in Hev; injection Hev as <-; reflexivity).
  destruct (shapes_labelled fresh start 32 ev Hev Hr)
    as (label & file & roi & dna & cover & labels & s1 & s2 & kw1 & kw2 &
        Hc & Hl & _).
  exists ev, label, s1, s2. split; [reflexivity |]. split; [exact Hr |].
  split; [exact Hc |]. destruct Hl as [[-> _] | [-> _]]; tauto.
Defined.

(** X10.  In every run, the fitting call is given datasets of the
    training regions only: its first argument was returned by the
    sequence loader, its second by ReduceDim on what the label loader
    returned, and both loaders were called with [roi] set to what
    resource_filename('janggu', 'resources/roi_train.bed') returned. *)
Theorem fit_on_training_regions {L : Type} (h : library L) (w : world L)
    (i : nat) (ev : event L) :
  trace (run h script w) !! i = Some ev ->
  is_fitting (ev_call ev) = true ->
  let tr := trace (run h script w) in
  exists model roi dna cover labels kw1 kw2,
    ev_call ev = CallMethod model "fit" [dna; labels] fit_kw /\
    earlier tr i (Call "resource_filename"
                    [VStr "janggu"; VStr "resources/roi_train.bed"] ∅) roi /\
    earlier tr i (Call "Bioseq.create_from_refgenome" [VStr "dna"] kw1) dna /\
    kw1 !! "roi" = Some roi /\
    earlier tr i (Call "Cover.create_from_bed" [VStr "peaks"] kw2) cover /\
    kw2 !! "roi" = Some roi /\
    earlier tr i (Call "ReduceDim" [cover] ∅) labels.
Proof.
  intros Hev HP tr.
  pose proof (script_position h w is_fitting i ev Hev HP) as Hi.
  pose proof (script_at h w i ev Hev) as Hat.
  fold tr in Hat. set (rs := results tr) in *.
  set (f := Files (rs 17%nat) (rs 18%nat) (rs 19%nat) (rs 20%nat)).
  change (i ∈ [44%nat]) in Hi. apply list_elem_of_singleton in Hi. subst i.
  exists (rs 41%nat), (rs 18%nat), (rs 21%nat), (rs 22%nat), (rs 23%nat).
  exists (dna_train_kw f), (labels_train_kw f).
  split.
  { change (script_calls rs !! 44%nat) with
      (Some (CallMethod (rs 41%nat) "fit" [rs 21%nat; rs 23%nat] fit_kw,
             rs 44%nat)) in Hat.
    congruence. }
  split; [exact (script_earlier h w 44 18 ev _ _ Hev ltac:(lia) eq_refl) |].
  split; [exact (script_earlier h w 44 21 ev _ _ Hev ltac:(lia) eq_refl) |].
  split; [reflexivity |].
  split; [exact (script_earlier h w 44 22 ev _ _ Hev ltac:(lia) eq_refl) |].
  split; [reflexivity |].
  exact (script_earlier h w 44 23 ev _ _ Hev ltac:(lia) eq_refl).
Qed.

Lemma fit_on_training_regions_witness :
  exists ev roi (kw1 : kwargs),
    trace (run fresh script start) !! 44%nat = Some ev /\
    is_fitting (ev_call ev) = true /\
    earlier (trace (run fresh script start)) 44
      (Call "resource_filename"
         [VStr "janggu"; VStr "resources/roi_train.bed"] ∅) roi /\
    kw1 !! "roi" = Some roi.
Proof.
  destruct (trace (run fresh script start) !! 44%nat) as [ev |] eqn:Hev;
    [| vm_compute in Hev; discriminate].
  assert (Hf : is_fitting (ev_call ev) = true)
    by (vm_compute in Hev; injection Hev as <-; reflexivity).
  destruct (fit_on_training_regions fresh start 44 ev Hev Hf)
    as (model & roi & dna & cover & labels & kw1 & kw2 & _ & Hroi & _ &
        Hkw & _).
  exists ev, roi, kw1. split; [reflexivity |]. split; [exact Hf |].
  split; assumption.
Defined.

(** X11.  In every run, the score is computed on data of the test regions
    only: roc_auc_score gets the items LABELS_TEST[:] of the label dataset
    and the predictions of the model for the sequence dataset, and both
    datasets were loaded with [roi] set to what
    resource_filename('janggu', 'resources/roi_test.bed') returned. *)
Theorem score_on_test_regions {L : Type} (h : library L) (w : world L)
    (i : nat) (ev : event L) :
  trace (run h script w) !! i = Some ev ->
  is_scoring (ev_call ev) = true ->
  let tr := trace (run h script w) in
  exists model roi dna_test cover labels_test kw1 kw2 labels pred,
    ev_call ev = Call "roc_auc_score" [labels; pred] ∅ /\
    earlier tr i (Call "resource_filename"
                    [VStr "janggu"; VStr "resources/roi_test.bed"] ∅) roi /\
    earlier tr i (Call "Bioseq.create_from_refgenome" [VStr "dna"] kw1)
      dna_test /\
    kw1 !! "roi" = Some roi /\
    earlier tr i (Call "Cover.create_from_bed" [VStr "peaks"] kw2) cover /\
    kw2 !! "roi" = Some roi /\
    earlier tr i (Call "ReduceDim" [cover] ∅) labels_test /\
    earlier tr i (CallMethod model "predict" [dna_test] ∅) pred /\
    earlier tr i (GetItem labels_test (VSlice VNone VNone VNone)) labels.
Proof.
  intros Hev HP tr.
  pose proof (script_position h w is_scoring i ev Hev HP) as Hi.
  pose proof (script_at h w i ev Hev) as Hat.
  fold tr in Hat. set (rs := results tr) in *.
  set (f := Files (rs 17%nat) (rs 18%nat) (rs 19%nat) (rs 20%nat)).
  change (i ∈ [61%nat]) in Hi. apply list_elem_of_singleton in Hi. subst i.
  exists (rs 41%nat), (rs 19%nat), (rs 24%nat), (rs 25%nat), (rs 26%nat).
  exists (dna_test_kw f), (labels_test_kw f), (rs 60%nat), (rs 55%nat).
  split.
  { change (script_calls rs !! 61%nat) with
      (Some (Call "roc_auc_score" [rs 60%nat; rs 55%nat] ∅, rs 61%nat))
      in Hat.
    congruence. }
  split; [exact (script_earlier h w 61 19 ev _ _ Hev ltac:(lia) eq_refl) |].
  split; [exact (script_earlier h w 61 24 ev _ _ Hev ltac:(lia) eq_refl) |].
  split; [reflexivity |].
  split; [exact (script_earlier h w 61 25 ev _ _ Hev ltac:(lia) eq_refl) |].
  split; [reflexivity |].
  split; [exact (script_earlier h w 61 26 ev _ _ Hev ltac:(lia) eq_refl) |].
  split; [exact (script_earlier h w 61 55 ev _ _ Hev ltac:(lia) eq_refl) |].
  exact (script_earlier h w 61 60 ev _ _ Hev ltac:(lia) eq_refl).
Qed.

Lemma score_on_test_regions_witness :
  exists ev roi (kw2 : kwargs),
    trace (run fresh script start) !! 61%nat = Some ev /\
    is_scoring (ev_call ev) = true /\
    earlier (trace (run fresh script start)) 61
      (Call "resource_filename"
         [VStr "janggu"; VStr "resources/roi_test.bed"] ∅) roi /\
    kw2 !! "roi" = Some roi.
Proof.
  destruct (trace (run fresh script start) !! 61%nat) as [ev |] eqn:Hev;
    [| vm_compute in Hev; discriminate].
  assert (Hf : is_scoring (ev_call ev) = true)
    by (vm_compute in Hev; injection Hev as <-; reflexivity).
  destruct (score_on_test_regions fresh start 61 ev Hev Hf)
    as (model & roi & dna_test & cover & labels_test & kw1 & kw2 & labels &
        pred & _ & Hroi & _ & _ & _ & Hkw & _).
  exists ev, roi, kw2. split; [reflexivity |]. split; [exact Hf |].
  split; assumption.
Defined.
